(** * PPK2 recording analysis: edge detection, trigger matching, report

    A shallow embedding of [script/ppk_record_analysis.py] and the
    properties its specification states about it.

    Conventions of the embedding.
    - Python [float] timestamps and latencies are exact rationals [Q]:
      comparisons are [Qle_bool], subtraction is [Qminus]; NaN and
      infinite timestamps are outside the model.  The sentinel
      [float('inf')] of the matcher is the [None] of [best_latency].
    - The arithmetic of the Report Builder rounds: [sum] on a list of
      floats and [/] of a float by a length are the parameters [py_sum]
      and [float_div], with nothing assumed of them.
    - Python [int]s (digital levels, enumeration indices, the sentinel
      [-1]) are [Z].
    - [used_rx_indices] is a [gset Z].
    - [print] appends a [Print] effect to the standard-output log that
      every printing function returns beside its value; [sys.exit(1)] is
      the [Exit] outcome; a raised exception is the [Raised] result.
    - An f-string is a list of [Piece]s: literal text, integers and reals
      with their format precision. *)

From Stdlib Require Import ZArith QArith Lqa Lia List Sorted String.
From stdpp Require Import base gmap sets list strings.

Open Scope Z_scope.

(** ** Comparisons on rationals *)

(** [x < y] on floats, as a boolean test. *)
Definition Qltb (x y : Q) : bool := negb (Qle_bool y x).

(** ** Python's [enumerate] *)

Fixpoint enumerate_from {A : Type} (start : Z) (l : list A) : list (Z * A) :=
  match l with
  | [] => []
  | x :: rest => (start, x) :: enumerate_from (start + 1) rest
  end.

Definition enumerate {A : Type} (l : list A) : list (Z * A) := enumerate_from 0 l.

(** ** Edge detector *)

(** The body of the [for] loop of [detect_rising_edges], over the zipped
    samples, with the loop variables [prev_value] and [rising_edges]. *)
Fixpoint rising_edges_loop (samples : list (Q * Z)) (prev_value : Z)
    (rising_edges : list Q) : list Q :=
  match samples with
  | [] => rising_edges
  | (timestamp, value) :: rest =>
      rising_edges_loop rest value
        (if (prev_value =? 0) && (value =? 1)
         then rising_edges ++ [timestamp]
         else rising_edges)
  end.

Definition detect_rising_edges (timestamps : list Q) (channel_data : list Z) : list Q :=
  rising_edges_loop (zip timestamps channel_data) 0 [].

(** *** Runs of 1s, in the specification's words

    Sample [i] starts a maximal run of 1s when its level is 1 and the
    level before it is not 1; the level before the first sample is the
    implicit [before]. *)

Definition level_before (before : Z) (levels : list Z) (i : nat) : Z :=
  match i with
  | O => before
  | S j => nth j levels 0
  end.

Definition starts_run (before : Z) (levels : list Z) (i : nat) : bool :=
  (nth i levels 0 =? 1) && negb (level_before before levels i =? 1).

Definition run_starts (before : Z) (levels : list Z) : list nat :=
  List.filter (starts_run before levels) (seq 0 (length levels)).

Definition binary (v : Z) : Prop := v = 0 \/ v = 1.


(** ** Text, output and exceptions *)

(** A piece of an f-string: literal text, a line break, an integer, or a
    real printed with [precision] decimals. *)
Inductive Piece : Type :=
| Text (s : string)
| Newline
| Int (n : Z)
| Real (precision : nat) (x : Q).

(** What the script does to the outside world. *)
Inductive Effect : Type :=
| Print (line : list Piece)
| WriteFile (path : string) (content : list Piece).

Inductive Exception : Type :=
| ZeroDivisionError
| ValueError.

Inductive Result (A : Type) : Type :=
| Ok (a : A)
| Raised (e : Exception).
Arguments Ok {A} a.
Arguments Raised {A} e.

Definition bind {A B : Type} (r : Result A) (k : A -> Result B) : Result B :=
  match r with
  | Ok a => k a
  | Raised e => Raised e
  end.

Notation "'try' x ':=' r 'in' k" := (bind r (fun x => k))
  (at level 10, x name, r at level 100, k at level 200).

(** ** Latency measurements *)

Record LatencyMeasurement : Type := mkLatencyMeasurement {
  packet_num : Z;
  tx_time : Q;
  rx_time : Q;
  latency : Q
}.

(** [LatencyMeasurement.__init__] *)
Definition LatencyMeasurement_init (packet_num : Z) (tx_time rx_time : Q) :
    LatencyMeasurement :=
  {| packet_num := packet_num;
     tx_time := tx_time;
     rx_time := rx_time;
     latency := (rx_time - tx_time)%Q |}.

(** ** Trigger matcher *)

(** The three variables of the inner search; [best_latency = None] is
    [float('inf')]. *)
Record Best : Type := mkBest {
  best_match : option Q;
  best_latency : option Q;
  best_idx : Z
}.

Definition best_none : Best :=
  {| best_match := None; best_latency := None; best_idx := -1 |}.

(** [latency < best_latency] *)
Definition below_best (latency : Q) (best_latency : option Q) : bool :=
  match best_latency with
  | None => true
  | Some b => Qltb latency b
  end.

(** One iteration of the inner [for i, rx_time in enumerate(rx_triggers)]. *)
Definition scan_rx (used_rx_indices : gset Z) (max_latency_ms tx_time : Q)
    (b : Best) (entry : Z * Q) : Best :=
  let '(i, rx_time) := entry in
  if bool_decide (i ∈ used_rx_indices) then b
  else if Qle_bool rx_time tx_time then b
  else
    let latency := (rx_time - tx_time)%Q in
    if Qltb max_latency_ms latency then b
    else if below_best latency (best_latency b)
         then {| best_match := Some rx_time;
                 best_latency := Some latency;
                 best_idx := i |}
         else b.

Definition find_best (used_rx_indices : gset Z) (max_latency_ms tx_time : Q)
    (rx_triggers : list Q) : Best :=
  fold_left (scan_rx used_rx_indices max_latency_ms tx_time)
            (enumerate rx_triggers) best_none.

(** The variables of the outer loop, with the standard output. *)
Record MatchState : Type := mkMatchState {
  measurements : list LatencyMeasurement;
  used_rx_indices : gset Z;
  stdout : list Effect
}.

Definition warn_no_match (packet_num : Z) (tx_time : Q) : Effect :=
  Print [Text "Warning: No matching RX trigger found for TX trigger ";
         Int packet_num; Text " at "; Real 3 tx_time; Text "ms"].

(** One iteration of the outer [for packet_num, tx_time in
    enumerate(tx_triggers)]. *)
Definition match_tx (rx_triggers : list Q) (max_latency_ms : Q)
    (st : MatchState) (entry : Z * Q) : MatchState :=
  let '(packet_num, tx_time) := entry in
  let b := find_best (used_rx_indices st) max_latency_ms tx_time rx_triggers in
  match best_match b with
  | Some rx_time =>
      {| measurements :=
           measurements st ++ [LatencyMeasurement_init packet_num tx_time rx_time];
         used_rx_indices := used_rx_indices st ∪ {[ best_idx b ]};
         stdout := stdout st |}
  | None =>
      {| measurements := measurements st;
         used_rx_indices := used_rx_indices st;
         stdout := stdout st ++ [warn_no_match packet_num tx_time] |}
  end.

Definition match_start : MatchState :=
  {| measurements := [];
     used_rx_indices := ∅;
     stdout := [Print [Text "Matching TX and RX triggers..."]] |}.

Definition match_loop (tx_triggers rx_triggers : list Q) (max_latency_ms : Q) :
    MatchState :=
  fold_left (match_tx rx_triggers max_latency_ms) (enumerate tx_triggers)
            match_start.

(** The matcher: the value it returns and what it prints. *)
Definition match_triggers_and_calculate_latency
    (tx_triggers rx_triggers : list Q) (max_latency_ms : Q) :
    list LatencyMeasurement * list Effect :=
  let st := match_loop tx_triggers rx_triggers max_latency_ms in
  (measurements st,
   stdout st ++
   [Print [Text "Successfully matched ";
           Int (Z.of_nat (length (measurements st)));
           Text " packet pairs"]]).

Definition returned {A B : Type} (r : A * B) : A := fst r.
Definition printed {A B : Type} (r : A * B) : B := snd r.

(** *** The matcher's contract, in the specification's words *)

(** Receive event [i] at [rx_time] is a candidate for the send event at
    [tx_time]: not consumed, later than the send, within the bound. *)
Definition candidate (used : gset Z) (max_latency tx_time : Q)
    (i : Z) (rx_time : Q) : Prop :=
  (i ∉ used) /\ (tx_time < rx_time)%Q /\ (rx_time - tx_time <= max_latency)%Q.

(** [(i, rx_time)] is the nearest candidate: no candidate has a strictly
    smaller latency, and none of equal latency has a lower index. *)
Definition nearest (used : gset Z) (max_latency tx_time : Q)
    (rx_triggers : list Q) (i : Z) (rx_time : Q) : Prop :=
  In (i, rx_time) (enumerate rx_triggers) /\
  candidate used max_latency tx_time i rx_time /\
  forall j rx_j,
    In (j, rx_j) (enumerate rx_triggers) ->
    candidate used max_latency tx_time j rx_j ->
    (rx_time - tx_time <= rx_j - tx_time)%Q /\
    ((rx_j - tx_time <= rx_time - tx_time)%Q -> i <= j).

(** The greedy pairing of the send events from index [k] on, given the
    consumed set [used]: the measurements, the receive index each one
    consumes, and the unmatched send events. *)
Inductive greedy (rx_triggers : list Q) (max_latency : Q) :
    Z -> gset Z -> list Q ->
    list (LatencyMeasurement * Z) -> list (Z * Q) -> gset Z -> Prop :=
| greedy_done k used :
    greedy rx_triggers max_latency k used [] [] [] used
| greedy_pair k used tx_time rest i rx_time pairs unmatched used' :
    nearest used max_latency tx_time rx_triggers i rx_time ->
    greedy rx_triggers max_latency (k + 1) (used ∪ {[ i ]}) rest
           pairs unmatched used' ->
    greedy rx_triggers max_latency k used (tx_time :: rest)
           ((LatencyMeasurement_init k tx_time rx_time, i) :: pairs)
           unmatched used'
| greedy_skip k used tx_time rest pairs unmatched used' :
    (forall j rx_j, In (j, rx_j) (enumerate rx_triggers) ->
                    ~ candidate used max_latency tx_time j rx_j) ->
    greedy rx_triggers max_latency (k + 1) used rest pairs unmatched used' ->
    greedy rx_triggers max_latency k used (tx_time :: rest)
           pairs ((k, tx_time) :: unmatched) used'.

(** What the inner search knows after the entries [seen]: nothing
    qualified so far, or the three variables hold the nearest candidate
    among them. *)
Definition scanned (used : gset Z) (max_latency tx_time : Q)
    (seen : list (Z * Q)) (b : Best) : Prop :=
  (b = best_none /\
   forall j rx_j, In (j, rx_j) seen -> ~ candidate used max_latency tx_time j rx_j) \/
  (exists i rx_time,
      b = {| best_match := Some rx_time;
             best_latency := Some (rx_time - tx_time)%Q;
             best_idx := i |} /\
      In (i, rx_time) seen /\
      candidate used max_latency tx_time i rx_time /\
      forall j rx_j,
        In (j, rx_j) seen ->
        candidate used max_latency tx_time j rx_j ->
        (rx_time - tx_time <= rx_j - tx_time)%Q /\
        ((rx_j - tx_time <= rx_time - tx_time)%Q -> i <= j)).

Definition warn_unmatched (u : Z * Q) : Effect := warn_no_match (fst u) (snd u).

(** No two entries of [l] are equal as numbers. *)
Fixpoint pairwise_distinct (l : list Q) : bool :=
  match l with
  | [] => true
  | x :: rest => forallb (fun y => negb (Qeq_bool x y)) rest && pairwise_distinct rest
  end.

(** ** Report builder *)

Section FloatArithmetic.

(** [sum(l)] on a list of floats, and [x / n] for a float [x] and a length
    [n] that is not 0: both round, the first in a way that depends on the
    interpreter. *)
Variable py_sum : list Q -> Q.
Variable float_div : Q -> Z -> Q.

(** [x / n] with [n] a length; raises on zero. *)
Definition py_div (x : Q) (n : Z) : Result Q :=
  if n =? 0 then Raised ZeroDivisionError else Ok (float_div x n).

(** [min(l)] and [max(l)]: the first smallest (largest) element; raise on
    the empty list. *)
Definition py_min (l : list Q) : Result Q :=
  match l with
  | [] => Raised ValueError
  | x :: rest => Ok (fold_left (fun m y => if Qltb y m then y else m) rest x)
  end.

Definition py_max (l : list Q) : Result Q :=
  match l with
  | [] => Raised ValueError
  | x :: rest => Ok (fold_left (fun m y => if Qltb m y then y else m) rest x)
  end.

Definition table_rule : list Piece :=
  [Text "|---------------|---------------------|---------------------|-------------|";
   Newline].

Definition table_summary (count : Z) (avg_latency min_latency max_latency : Q) :
    list Piece :=
  [Text "## UDP Latency Analysis Results"; Newline; Newline;
   Text "**Summary Statistics:**"; Newline;
   Text "- Total Packets: "; Int count; Newline;
   Text "- Average Latency: "; Real 3 avg_latency; Text " ms"; Newline;
   Text "- Minimum Latency: "; Real 3 min_latency; Text " ms"; Newline;
   Text "- Maximum Latency: "; Real 3 max_latency; Text " ms"; Newline; Newline].

Definition table_head : list Piece :=
  [Text "| Packet Number | TX Trigger Time (ms) | RX Trigger Time (ms) | Latency (ms) |";
   Newline] ++ table_rule.

Definition table_row (measurement : LatencyMeasurement) : list Piece :=
  [Text "| "; Int (packet_num measurement);
   Text " | "; Real 2 (tx_time measurement);
   Text " | "; Real 2 (rx_time measurement);
   Text " | "; Real 2 (latency measurement);
   Text " |"; Newline].

Definition table_foot (avg_latency min_latency max_latency : Q) : list Piece :=
  table_rule ++
  [Text "| **Average** | - | - | **"; Real 2 avg_latency; Text "** |"; Newline;
   Text "| **Minimum** | - | - | **"; Real 2 min_latency; Text "** |"; Newline;
   Text "| **Maximum** | - | - | **"; Real 2 max_latency; Text "** |"; Newline].

Definition no_measurements : list Piece := [Text "No measurements available."].

Definition generate_markdown_table (measurements : list LatencyMeasurement) :
    Result (list Piece) :=
  match measurements with
  | [] => Ok no_measurements
  | _ :: _ =>
      let latencies := map latency measurements in
      try avg_latency := py_div (py_sum latencies) (Z.of_nat (length latencies)) in
      try min_latency := py_min latencies in
      try max_latency := py_max latencies in
      Ok (table_summary (Z.of_nat (length measurements))
                        avg_latency min_latency max_latency ++
          table_head ++
          flat_map table_row measurements ++
          table_foot avg_latency min_latency max_latency)
  end.

(** ** The pipeline *)

(** How a run of the script ends. *)
Inductive Outcome : Type :=
| Completed
| Exit (code : Z)
| Uncaught (e : Exception).

(** The end of [parse_csv_file], once the rows are read: edge detection on
    the two channels. *)
Definition parse_csv_file_triggers (timestamps : list Q) (d0_data d1_data : list Z) :
    (list Q * list Q) * list Effect :=
  let tx_triggers := detect_rising_edges timestamps d0_data in
  let rx_triggers := detect_rising_edges timestamps d1_data in
  ((tx_triggers, rx_triggers),
   [Print [Text "Detecting trigger events..."];
    Print [Text "Found "; Int (Z.of_nat (length tx_triggers)); Text " TX triggers (D0)"];
    Print [Text "Found "; Int (Z.of_nat (length rx_triggers)); Text " RX triggers (D1)"]]).

Definition error_no_tx : Effect :=
  Print [Text "Error: No TX triggers found in the data"].
Definition error_no_rx : Effect :=
  Print [Text "Error: No RX triggers found in the data"].
Definition error_no_measurements : Effect :=
  Print [Text "Error: No valid latency measurements could be calculated"].

Fixpoint string_repeat (s : string) (n : nat) : string :=
  match n with
  | O => EmptyString
  | S m => String.append s (string_repeat s m)
  end.

(** The [else] branch at the end of [main]: the table on the standard
    output. *)
Definition print_results (markdown_table : list Piece) : list Effect * Outcome :=
  ([Print [Newline; Text (string_repeat "=" 80)];
    Print [Text "MARKDOWN TABLE OUTPUT"];
    Print [Text (string_repeat "=" 80)];
    Print markdown_table;
    Print [Text (string_repeat "=" 80)]], Completed).

(** The end of [main]: [if args.output:] sends the table to the file
    [output] when one is given and its name is not empty ([can_write]
    tells whether writing it succeeds), to the standard output otherwise. *)
Definition output_results (can_write : string -> bool) (output : option string)
    (markdown_table : list Piece) : list Effect * Outcome :=
  match output with
  | Some path =>
      if String.eqb path EmptyString
      then print_results markdown_table
      else if can_write path
      then ([WriteFile path markdown_table;
             Print [Text "Results saved to: "; Text path]], Completed)
      else ([Print [Text "Error writing output file"]], Exit 1)
  | None => print_results markdown_table
  end.

(** [main] from the two trigger sequences that [parse_csv_file] returns. *)
Definition main_triggers (can_write : string -> bool) (output : option string)
    (max_latency : Q) (tx_triggers rx_triggers : list Q) : list Effect * Outcome :=
  match tx_triggers with
  | [] => ([error_no_tx], Exit 1)
  | _ :: _ =>
      match rx_triggers with
      | [] => ([error_no_rx], Exit 1)
      | _ :: _ =>
          let m := match_triggers_and_calculate_latency
                     tx_triggers rx_triggers max_latency in
          match returned m with
          | [] => (printed m ++ [error_no_measurements], Exit 1)
          | _ :: _ =>
              match generate_markdown_table (returned m) with
              | Raised e => (printed m, Uncaught e)
              | Ok markdown_table =>
                  let '(out, outcome) :=
                    output_results can_write output markdown_table in
                  (printed m ++ out, outcome)
              end
          end
      end
  end.

(** [main] from the rows read from the recording. *)
Definition main (can_write : string -> bool) (output : option string)
    (max_latency : Q) (timestamps : list Q) (d0_data d1_data : list Z) :
    list Effect * Outcome :=
  let '((tx_triggers, rx_triggers), out) :=
    parse_csv_file_triggers timestamps d0_data d1_data in
  let '(out', outcome) :=
    main_triggers can_write output max_latency tx_triggers rx_triggers in
  (out ++ out', outcome).

(** An effect that delivers a report: a file written, or a table of the
    Report Builder on the standard output. *)
Definition delivers_report (e : Effect) : Prop :=
  (exists path content, e = WriteFile path content) \/
  (exists measurements table,
      generate_markdown_table measurements = Ok table /\ e = Print table).

End FloatArithmetic.

(** Arithmetic without rounding, for examples. *)
Definition exact_sum (l : list Q) : Q := fold_left Qplus l 0%Q.
Definition exact_div (x : Q) (n : Z) : Q := (x / inject_Z n)%Q.

(** The lines of a text: the pieces between line breaks. *)
Fixpoint lines_from (line text : list Piece) : list (list Piece) :=
  match text with
  | [] =>
      match line with
      | [] => []
      | _ :: _ => [line]
      end
  | Newline :: rest => line :: lines_from [] rest
  | piece :: rest => lines_from (line ++ [piece]) rest
  end.

Definition text_lines (text : list Piece) : list (list Piece) := lines_from [] text.

(** The test behind [delivers_report]: a file written, or a printed line
    that opens with one of the two openings of the Report Builder's text. *)
Definition is_report (e : Effect) : bool :=
  match e with
  | WriteFile _ _ => true
  | Print (Text s :: _) =>
      String.eqb s "No measurements available." ||
      String.eqb s "## UDP Latency Analysis Results"
  | Print _ => false
  end.

(** ** Further vocabulary for the edge detector *)

(** Sample [i] is a rising edge: its level is 1 and the level before it,
    [before] for the first sample, is 0. *)
Definition rises (before : Z) (levels : list Z) (i : nat) : bool :=
  (level_before before levels i =? 0) && (nth i levels 0 =? 1).

(** ** Further vocabulary for the matcher *)

(** The closing line of the matcher for [n] measurements. *)
Definition matched_line (n : nat) : Effect :=
  Print [Text "Successfully matched "; Int (Z.of_nat n); Text " packet pairs"].

(** Send event [k] has a measurement in the list. *)
Definition measured (measurements : list LatencyMeasurement) (k : Z) : bool :=
  existsb (fun m => packet_num m =? k) measurements.

(** The receive times never decrease along the list. *)
Fixpoint nondecreasing (l : list Q) : bool :=
  match l with
  | x :: rest =>
      match rest with
      | y :: _ => Qle_bool x y && nondecreasing rest
      | [] => true
      end
  | [] => true
  end.

(** Each send event is followed, within the bound, by the receive event at
    the same position. *)
Definition answered_in_place (max_latency : Q) (tx_triggers rx_triggers : list Q) : bool :=
  (length tx_triggers <=? length rx_triggers)%nat &&
  forallb (fun p => Qltb (fst p) (snd p) && Qle_bool (snd p - fst p) max_latency)
          (zip tx_triggers rx_triggers).

(** The pairing of the send event at each position with the receive event
    at the same position, numbered from [k]. *)
Fixpoint pair_in_place (k : Z) (tx_triggers rx_triggers : list Q) :
    list LatencyMeasurement :=
  match tx_triggers, rx_triggers with
  | t :: txs, r :: rxs =>
      LatencyMeasurement_init k t r :: pair_in_place (k + 1) txs rxs
  | _, _ => []
  end.

(** ** Reading the rows of the recording

    [csv.DictReader] is outside the model: its result is.  A reader has the
    column names of the header line ([None] for an empty file) and yields
    one dictionary per data line, with the value [None] for a column that a
    short line leaves out.  [float] and [int] on a string are parameters
    ([None] when they raise [ValueError]); on [None] they raise
    [TypeError].  Failures of [open] other than a missing file are not
    modelled. *)

(** What can go wrong in converting one row. *)
Inductive RowError : Type :=
| MissingKey (key : string)
| NotAFloat (value : string)
| NotAnInt (value : string)
| FloatOfNone
| IntOfNone.

(** [except (ValueError, KeyError)]: a [TypeError] is not caught. *)
Definition caught (e : RowError) : bool :=
  match e with
  | MissingKey _ | NotAFloat _ | NotAnInt _ => true
  | FloatOfNone | IntOfNone => false
  end.

Inductive Opened : Type :=
| FileNotFound
| CsvReader (fieldnames : option (list string))
            (rows : list (gmap string (option string))).

(** The variables of the reading loop, with the standard output. *)
Record ReadState : Type := mkReadState {
  read_timestamps : list Q;
  read_d0_data : list Z;
  read_d1_data : list Z;
  row_count : Z;
  read_stdout : list Effect
}.

Definition read_start (out : list Effect) : ReadState :=
  {| read_timestamps := []; read_d0_data := []; read_d1_data := [];
     row_count := 0; read_stdout := out |}.

Section Reading.
Variable py_float : string -> option Q.
Variable py_int : string -> option Z.
Variable describe : RowError -> string.
Variable repr_fieldnames : list string -> string.

(** [row[key]] *)
Definition subscript (row : gmap string (option string)) (key : string) :
    RowError + option string :=
  match row !! key with
  | Some value => inr value
  | None => inl (MissingKey key)
  end.

(** [float(value)] *)
Definition float_of (value : option string) : RowError + Q :=
  match value with
  | None => inl FloatOfNone
  | Some text =>
      match py_float text with
      | Some x => inr x
      | None => inl (NotAFloat text)
      end
  end.

(** [int(value)] *)
Definition int_of (value : option string) : RowError + Z :=
  match value with
  | None => inl IntOfNone
  | Some text =>
      match py_int text with
      | Some n => inr n
      | None => inl (NotAnInt text)
      end
  end.

Definition and_then {A B : Type} (r : RowError + A) (k : A -> RowError + B) :
    RowError + B :=
  match r with
  | inl e => inl e
  | inr a => k a
  end.

(** The three conversions at the head of the [try] block, in order. *)
Definition convert_row (row : gmap string (option string)) : RowError + (Q * Z * Z) :=
  and_then (subscript row "Timestamp(ms)") (fun v =>
  and_then (float_of v) (fun timestamp =>
  and_then (subscript row "D0") (fun v0 =>
  and_then (int_of v0) (fun d0_value =>
  and_then (subscript row "D1") (fun v1 =>
  and_then (int_of v1) (fun d1_value =>
  inr (timestamp, d0_value, d1_value))))))).

(** One iteration of [for row in reader]: the new state, or the exception
    that leaves the loop together with what was printed so far. *)
Definition read_row (st : ReadState) (row : gmap string (option string)) :
    (RowError * list Effect) + ReadState :=
  match convert_row row with
  | inr (timestamp, d0_value, d1_value) =>
      inr {| read_timestamps := read_timestamps st ++ [timestamp];
             read_d0_data := read_d0_data st ++ [d0_value];
             read_d1_data := read_d1_data st ++ [d1_value];
             row_count := row_count st + 1;
             read_stdout :=
               read_stdout st ++
               if (row_count st + 1) mod 100000 =? 0
               then [Print [Text "Processed "; Int (row_count st + 1);
                            Text " rows..."]]
               else [] |}
  | inl e =>
      if caught e
      then inr {| read_timestamps := read_timestamps st;
                  read_d0_data := read_d0_data st;
                  read_d1_data := read_d1_data st;
                  row_count := row_count st;
                  read_stdout :=
                    read_stdout st ++
                    [Print [Text "Warning: Skipping invalid row ";
                            Int (row_count st); Text ": "; Text (describe e)]] |}
      else inl (e, read_stdout st)
  end.

Fixpoint read_rows (rows : list (gmap string (option string))) (st : ReadState) :
    (RowError * list Effect) + ReadState :=
  match rows with
  | [] => inr st
  | row :: rest =>
      match read_row st row with
      | inl failure => inl failure
      | inr st' => read_rows rest st'
      end
  end.

(** The three checks of the header; the text is that of the [ValueError]
    they raise. *)
Definition check_fieldnames (fieldnames : option (list string)) :
    string + list string :=
  match fieldnames with
  | None => inl "CSV file has no column headers"
  | Some names =>
      if negb (bool_decide ("Timestamp(ms)" ∈ names))
      then inl "CSV file must contain 'Timestamp(ms)' column"
      else if negb (bool_decide ("D0" ∈ names)) || negb (bool_decide ("D1" ∈ names))
      then inl "CSV file must contain 'D0' and 'D1' columns"
      else inr names
  end.

Definition error_reading (message : string) : Effect :=
  Print [Text "Error reading CSV file: "; Text message].

(** [parse_csv_file]: what it prints, and the exit status or the two
    trigger lists it returns. *)
Definition parse_csv_file (filename : string) (file : Opened) :
    list Effect * (Z + (list Q * list Q)) :=
  match file with
  | FileNotFound =>
      ([Print [Text "Error: File '"; Text filename; Text "' not found"]], inl 1)
  | CsvReader fieldnames rows =>
      match check_fieldnames fieldnames with
      | inl message => ([error_reading message], inl 1)
      | inr names =>
          match read_rows rows
                  (read_start
                     [Print [Text "Parsing CSV file: "; Text filename];
                      Print [Text "Columns found: "; Text (repr_fieldnames names)]])
          with
          | inl (e, out) => (out ++ [error_reading (describe e)], inl 1)
          | inr st =>
              let '(triggers, out) :=
                parse_csv_file_triggers (read_timestamps st)
                                        (read_d0_data st) (read_d1_data st) in
              (read_stdout st ++
               [Print [Text "Successfully parsed "; Int (row_count st);
                       Text " data points"]] ++ out,
               inr triggers)
          end
      end
  end.

(** The converted values of a row that the loop keeps. *)
Definition kept (row : gmap string (option string)) : option (Q * Z * Z) :=
  match convert_row row with
  | inr values => Some values
  | inl _ => None
  end.
End Reading.

(** * Proofs *)

(** ** Comparisons on rationals: lemmas *)

Lemma Qltb_true (x y : Q) : Qltb x y = true <-> (x < y)%Q.
Proof.
  unfold Qltb. rewrite negb_true_iff.
  split; intros H.
  - apply Qnot_le_lt. intros Hle. apply Qle_bool_iff in Hle. congruence.
  - destruct (Qle_bool y x) eqn:E; [|reflexivity].
    apply Qle_bool_iff in E. lra.
Qed.

Lemma Qltb_false (x y : Q) : Qltb x y = false <-> (y <= x)%Q.
Proof.
  unfold Qltb. rewrite negb_false_iff. apply Qle_bool_iff.
Qed.

Lemma Qle_bool_false (x y : Q) : Qle_bool x y = false <-> (y < x)%Q.
Proof.
  rewrite <- Qltb_true. unfold Qltb. apply (iff_sym (negb_true_iff _)).
Qed.

(** ** Edge detector: proofs *)

Lemma starts_run_shift (before v : Z) (levels : list Z) (i : nat) :
  starts_run before (v :: levels) (S i) = starts_run v levels i.
Proof.
  unfold starts_run. simpl. destruct i; reflexivity.
Qed.

Lemma run_starts_cons (before v : Z) (levels : list Z) :
  run_starts before (v :: levels) =
  (if starts_run before (v :: levels) O then [O] else []) ++
  map S (run_starts v levels).
Proof.
  unfold run_starts. cbn [length seq List.filter].
  rewrite <- seq_shift.
  assert (Hmap : forall l,
    List.filter (starts_run before (v :: levels)) (map S l) =
    map S (List.filter (starts_run v levels) l)).
  { induction l as [|a l IH]; [reflexivity|].
    cbn [map List.filter]. rewrite starts_run_shift, IH.
    destruct (starts_run v levels a); reflexivity. }
  rewrite Hmap.
  destruct (starts_run before (v :: levels) O); reflexivity.
Qed.

Lemma rising_edges_loop_runs (timestamps : list Q) :
  forall (levels : list Z) (prev_value : Z) (acc : list Q),
    length timestamps = length levels ->
    binary prev_value ->
    Forall binary levels ->
    rising_edges_loop (zip timestamps levels) prev_value acc =
    acc ++ map (fun i => nth i timestamps 0%Q) (run_starts prev_value levels).
Proof.
  induction timestamps as [|t ts IH]; intros levels p acc Hlen Hp Hall.
  - destruct levels; [|discriminate]. cbn. now rewrite app_nil_r.
  - destruct levels as [|v ls]; [discriminate|].
    injection Hlen as Hlen. inversion Hall as [|? ? Hv Hls]; subst.
    cbn [zip zip_with rising_edges_loop].
    rewrite IH by assumption.
    rewrite run_starts_cons, map_app, map_map. cbn [nth].
    unfold starts_run at 1. cbn [nth level_before].
    destruct Hp as [-> | ->], Hv as [-> | ->]; cbn;
      rewrite <- ?app_assoc; reflexivity.
Qed.

(** C3: on a binary level sequence the detector emits exactly the
    timestamps of the first samples of the maximal runs of 1s (the level
    before the first sample being the implicit 0), so the number of edges
    is the number of such runs; levels [0,0,1,1,0,1] at timestamps
    [0,1,2,3,4,5] give the edges [2,5]. *)
Theorem detect_rising_edges_runs :
  (forall (timestamps : list Q) (levels : list Z),
      length timestamps = length levels ->
      Forall binary levels ->
      detect_rising_edges timestamps levels =
        map (fun i => nth i timestamps 0%Q) (run_starts 0 levels) /\
      length (detect_rising_edges timestamps levels) =
        length (run_starts 0 levels)) /\
  detect_rising_edges [0; 1; 2; 3; 4; 5]%Q [0; 0; 1; 1; 0; 1] = [2; 5]%Q.
Proof.
  split; [|reflexivity].
  intros timestamps levels Hlen Hall.
  assert (E : detect_rising_edges timestamps levels =
              map (fun i => nth i timestamps 0%Q) (run_starts 0 levels)).
  { unfold detect_rising_edges.
    rewrite rising_edges_loop_runs by (assumption || now left).
    reflexivity. }
  split; [exact E|]. rewrite E. apply length_map.
Qed.

Lemma detect_rising_edges_runs_witness :
  length [10; 11; 12]%Q = length [1; 1; 0] /\
  Forall binary [1; 1; 0] /\
  detect_rising_edges [10; 11; 12]%Q [1; 1; 0] =
    map (fun i => nth i [10; 11; 12]%Q 0%Q) (run_starts 0 [1; 1; 0]) /\
  length (detect_rising_edges [10; 11; 12]%Q [1; 1; 0]) =
    length (run_starts 0 [1; 1; 0]).
Proof.
  assert (Hlen : length [10; 11; 12]%Q = length [1; 1; 0]) by reflexivity.
  assert (Hall : Forall binary [1; 1; 0]).
  { repeat constructor; unfold binary; lia. }
  split; [exact Hlen|]. split; [exact Hall|].
  exact (proj1 detect_rising_edges_runs _ _ Hlen Hall).
Defined.

(** C4 (as the code has it): a sequence whose first sample is at level 1
    does count as an edge at its first sample, because the previous level
    starts at 0; that timestamp is the first edge emitted. *)
Theorem detect_rising_edges_first_sample_high :
  forall (t : Q) (timestamps : list Q) (levels : list Z),
    detect_rising_edges (t :: timestamps) (1 :: levels) =
    t :: rising_edges_loop (zip timestamps levels) 1 [].
Proof.
  intros t timestamps levels. unfold detect_rising_edges.
  cbn [zip zip_with rising_edges_loop Z.eqb andb app].
  assert (Hacc : forall samples p acc,
    rising_edges_loop samples p acc = acc ++ rising_edges_loop samples p []).
  { induction samples as [|[ts v] rest IH]; intros p acc.
    - cbn. now rewrite app_nil_r.
    - cbn [rising_edges_loop].
      destruct ((p =? 0) && (v =? 1))%bool.
      + rewrite (IH v (acc ++ [ts])), (IH v ([] ++ [ts])).
        now rewrite <- app_assoc.
      + apply IH. }
  rewrite Hacc. reflexivity.
Qed.

(** C4, refuted as stated: levels [1,1,1] at timestamps [7,8,9] give an
    edge at 7, the first sample's timestamp. *)
Lemma detect_rising_edges_first_sample_counterexample :
  hd_error [1; 1; 1] = Some 1 /\
  In (7%Q) (detect_rising_edges [7; 8; 9]%Q [1; 1; 1]) /\
  detect_rising_edges [7; 8; 9]%Q [1; 1; 1] = [7%Q].
Proof.
  split; [reflexivity|]. split; [left; reflexivity|reflexivity].
Qed.

(** ** Enumeration *)

Lemma enumerate_from_index {A : Type} (l : list A) :
  forall (start i : Z) (x : A),
    In (i, x) (enumerate_from start l) ->
    start <= i < start + Z.of_nat (length l).
Proof.
  induction l as [|a l IH]; intros start i x Hin; [destruct Hin|].
  cbn [enumerate_from length] in *. destruct Hin as [E | Hin].
  - injection E as <- _. lia.
  - apply IH in Hin. lia.
Qed.

Lemma enumerate_from_lookup {A : Type} (l : list A) :
  forall (start i : Z) (x : A),
    In (i, x) (enumerate_from start l) <->
    start <= i /\ l !! Z.to_nat (i - start) = Some x.
Proof.
  induction l as [|a l IH]; intros start i x; cbn [enumerate_from].
  - split; [intros []|intros [_ H]; discriminate].
  - split.
    + intros [E | Hin].
      * injection E as <- <-. split; [lia|]. now rewrite Z.sub_diag.
      * pose proof (enumerate_from_index _ _ _ _ Hin) as Hr.
        apply IH in Hin as [_ Hl]. split; [lia|].
        replace (Z.to_nat (i - start)) with (S (Z.to_nat (i - (start + 1)))) by lia.
        exact Hl.
    + intros [Hle Hl]. destruct (Z.eq_dec i start) as [-> | Hne].
      * rewrite Z.sub_diag in Hl. injection Hl as <-. now left.
      * right. apply IH. split; [lia|].
        replace (Z.to_nat (i - start)) with (S (Z.to_nat (i - (start + 1)))) in Hl by lia.
        exact Hl.
Qed.

Lemma enumerate_from_functional {A : Type} (l : list A) (start i : Z) (x y : A) :
  In (i, x) (enumerate_from start l) ->
  In (i, y) (enumerate_from start l) ->
  x = y.
Proof.
  rewrite !enumerate_from_lookup. intros [_ Hx] [_ Hy]. congruence.
Qed.

Lemma enumerate_from_length {A : Type} (l : list A) (start : Z) :
  length (enumerate_from start l) = length l.
Proof.
  revert start. induction l as [|a l IH]; intros start; cbn; [|rewrite IH]; reflexivity.
Qed.

(** ** The inner search *)

Section Scan.
Variable used : gset Z.
Variables max_latency tx_time : Q.

Lemma scanned_nothing : scanned used max_latency tx_time [] best_none.
Proof. left. split; [reflexivity|]. intros j rx_j []. Qed.

Lemma scan_rx_scanned (seen : list (Z * Q)) (b : Best) (i : Z) (rx_time : Q) :
  (forall j rx_j, In (j, rx_j) seen -> j < i) ->
  scanned used max_latency tx_time seen b ->
  scanned used max_latency tx_time (seen ++ [(i, rx_time)])
          (scan_rx used max_latency tx_time b (i, rx_time)).
Proof.
  intros Hlt Hinv. unfold scan_rx.
  assert (Hkeep : ~ candidate used max_latency tx_time i rx_time ->
                  scanned used max_latency tx_time (seen ++ [(i, rx_time)]) b).
  { intros Hno. destruct Hinv as [[-> Hnone] | (i0 & r0 & -> & Hin & Hc & Hmin)].
    - left. split; [reflexivity|]. intros j rx_j [Hj | [E | []]]%in_app_iff.
      + now apply Hnone.
      + now injection E as <- <-.
    - right. exists i0, r0. split; [reflexivity|].
      split; [apply in_app_iff; now left|]. split; [assumption|].
      intros j rx_j [Hj | [E | []]]%in_app_iff Hcj.
      + now apply Hmin.
      + injection E as <- <-. contradiction. }
  case_bool_decide as Hused.
  { apply Hkeep. intros (Hn & _). contradiction. }
  destruct (Qle_bool rx_time tx_time) eqn:Hle.
  { apply Hkeep. apply Qle_bool_iff in Hle. intros (_ & Hl & _). lra. }
  apply Qle_bool_false in Hle.
  destruct (Qltb max_latency (rx_time - tx_time)) eqn:Hmax.
  { apply Hkeep. apply Qltb_true in Hmax. intros (_ & _ & Hb). lra. }
  apply Qltb_false in Hmax.
  assert (Hc : candidate used max_latency tx_time i rx_time) by (repeat split; assumption).
  destruct Hinv as [[-> Hnone] | (i0 & r0 & -> & Hin & Hc0 & Hmin)]; cbn [best_latency below_best].
  - right. exists i, rx_time. split; [reflexivity|].
    split; [apply in_app_iff; right; now left|]. split; [assumption|].
    intros j rx_j [Hj | [E | []]]%in_app_iff Hcj.
    + exfalso. now apply (Hnone j rx_j).
    + injection E as <- <-. split; [lra|lia].
  - destruct (Qltb (rx_time - tx_time) (r0 - tx_time)) eqn:Hbetter.
    + apply Qltb_true in Hbetter.
      right. exists i, rx_time. split; [reflexivity|].
      split; [apply in_app_iff; right; now left|]. split; [assumption|].
      intros j rx_j [Hj | [E | []]]%in_app_iff Hcj.
      * destruct (Hmin j rx_j Hj Hcj) as [Hle0 _]. split; [lra|]. intros Hge. lra.
      * injection E as <- <-. split; [lra|lia].
    + apply Qltb_false in Hbetter.
      right. exists i0, r0. split; [reflexivity|].
      split; [apply in_app_iff; now left|]. split; [assumption|].
      intros j rx_j [Hj | [E | []]]%in_app_iff Hcj.
      * now apply Hmin.
      * injection E as <- <-. split; [assumption|].
        intros _. apply Hlt in Hin. lia.
Qed.

Lemma fold_scan_rx_scanned (l : list Q) :
  forall (start : Z) (seen : list (Z * Q)) (b : Best),
    (forall j rx_j, In (j, rx_j) seen -> j < start) ->
    scanned used max_latency tx_time seen b ->
    scanned used max_latency tx_time (seen ++ enumerate_from start l)
            (fold_left (scan_rx used max_latency tx_time) (enumerate_from start l) b).
Proof.
  induction l as [|x l IH]; intros start seen b Hlt Hinv; cbn [enumerate_from fold_left].
  - now rewrite app_nil_r.
  - replace (seen ++ (start, x) :: enumerate_from (start + 1) l)
      with ((seen ++ [(start, x)]) ++ enumerate_from (start + 1) l)
      by now rewrite <- app_assoc.
    apply IH.
    + intros j rx_j [Hj | [E | []]]%in_app_iff.
      * apply Hlt in Hj. lia.
      * injection E as <- _. lia.
    + now apply scan_rx_scanned.
Qed.

Lemma find_best_scanned (rx_triggers : list Q) :
  scanned used max_latency tx_time (enumerate rx_triggers)
          (find_best used max_latency tx_time rx_triggers).
Proof.
  unfold find_best, enumerate.
  apply (fold_scan_rx_scanned rx_triggers 0 [] best_none).
  - intros j rx_j [].
  - apply scanned_nothing.
Qed.

(** The search ends with a match exactly when it holds the nearest
    candidate, and without one exactly when no receive event qualifies. *)
Lemma find_best_cases (rx_triggers : list Q) :
  (best_match (find_best used max_latency tx_time rx_triggers) = None /\
   forall j rx_j, In (j, rx_j) (enumerate rx_triggers) ->
                  ~ candidate used max_latency tx_time j rx_j) \/
  (exists i rx_time,
      best_match (find_best used max_latency tx_time rx_triggers) = Some rx_time /\
      best_idx (find_best used max_latency tx_time rx_triggers) = i /\
      nearest used max_latency tx_time rx_triggers i rx_time).
Proof.
  destruct (find_best_scanned rx_triggers) as [[-> Hnone] | (i & r & -> & Hin & Hc & Hmin)].
  - left. split; [reflexivity|assumption].
  - right. exists i, r. split; [reflexivity|]. split; [reflexivity|].
    split; [assumption|]. split; assumption.
Qed.
End Scan.

(** ** The matching loop *)

Section Matching.
Variable rx_triggers : list Q.
Variable max_latency : Q.

Lemma match_tx_none (st : MatchState) (k : Z) (t : Q) :
  best_match (find_best (used_rx_indices st) max_latency t rx_triggers) = None ->
  match_tx rx_triggers max_latency st (k, t) =
  {| measurements := measurements st;
     used_rx_indices := used_rx_indices st;
     stdout := stdout st ++ [warn_no_match k t] |}.
Proof. intros H. unfold match_tx. now rewrite H. Qed.

Lemma match_tx_some (st : MatchState) (k : Z) (t r : Q) :
  best_match (find_best (used_rx_indices st) max_latency t rx_triggers) = Some r ->
  match_tx rx_triggers max_latency st (k, t) =
  {| measurements := measurements st ++ [LatencyMeasurement_init k t r];
     used_rx_indices :=
       used_rx_indices st ∪
       {[ best_idx (find_best (used_rx_indices st) max_latency t rx_triggers) ]};
     stdout := stdout st |}.
Proof. intros H. unfold match_tx. now rewrite H. Qed.

(** The loop from any state is the greedy pairing from that state. *)
Lemma fold_match_tx_greedy (txs : list Q) :
  forall (k : Z) (st : MatchState),
  exists pairs unmatched,
    greedy rx_triggers max_latency k (used_rx_indices st) txs pairs unmatched
      (used_rx_indices
         (fold_left (match_tx rx_triggers max_latency) (enumerate_from k txs) st)) /\
    measurements
      (fold_left (match_tx rx_triggers max_latency) (enumerate_from k txs) st) =
      measurements st ++ map fst pairs /\
    stdout
      (fold_left (match_tx rx_triggers max_latency) (enumerate_from k txs) st) =
      stdout st ++ map warn_unmatched unmatched.
Proof.
  induction txs as [|t txs IH]; intros k st; cbn [enumerate_from fold_left].
  - exists [], []. cbn [map]. rewrite !app_nil_r. split; [constructor|]. split; reflexivity.
  - destruct (find_best_cases (used_rx_indices st) max_latency t rx_triggers)
      as [[Hn Hnone] | (i & r & Hm & Hi & Hnear)].
    + rewrite (match_tx_none st k t Hn).
      destruct (IH (k + 1) {| measurements := measurements st;
                              used_rx_indices := used_rx_indices st;
                              stdout := stdout st ++ [warn_no_match k t] |})
        as (pairs & unmatched & Hg & Hms & Hout).
      cbn [measurements used_rx_indices stdout] in Hg, Hms, Hout.
      exists pairs, ((k, t) :: unmatched).
      split; [now apply greedy_skip|]. split; [exact Hms|].
      rewrite Hout, <- app_assoc. reflexivity.
    + rewrite (match_tx_some st k t r Hm), Hi.
      destruct (IH (k + 1) {| measurements := measurements st ++ [LatencyMeasurement_init k t r];
                              used_rx_indices := used_rx_indices st ∪ {[ i ]};
                              stdout := stdout st |})
        as (pairs & unmatched & Hg & Hms & Hout).
      cbn [measurements used_rx_indices stdout] in Hg, Hms, Hout.
      exists ((LatencyMeasurement_init k t r, i) :: pairs), unmatched.
      split; [now apply greedy_pair|]. split; [|exact Hout].
      rewrite Hms, <- app_assoc. reflexivity.
Qed.

Lemma match_loop_greedy (tx_triggers : list Q) :
  exists pairs unmatched,
    greedy rx_triggers max_latency 0 ∅ tx_triggers pairs unmatched
      (used_rx_indices (match_loop tx_triggers rx_triggers max_latency)) /\
    measurements (match_loop tx_triggers rx_triggers max_latency) = map fst pairs /\
    stdout (match_loop tx_triggers rx_triggers max_latency) =
      Print [Text "Matching TX and RX triggers..."] :: map warn_unmatched unmatched.
Proof.
  destruct (fold_match_tx_greedy tx_triggers 0 match_start)
    as (pairs & unmatched & Hg & Hms & Hout).
  exists pairs, unmatched. split; [exact Hg|]. split; assumption.
Qed.

(** What a greedy pairing guarantees about each pair it holds. *)
Lemma greedy_pairs k used txs pairs unmatched used' :
  greedy rx_triggers max_latency k used txs pairs unmatched used' ->
  Forall (fun p =>
            In (packet_num (fst p), tx_time (fst p)) (enumerate_from k txs) /\
            In (snd p, rx_time (fst p)) (enumerate rx_triggers) /\
            latency (fst p) = (rx_time (fst p) - tx_time (fst p))%Q /\
            (tx_time (fst p) < rx_time (fst p))%Q /\
            (rx_time (fst p) - tx_time (fst p) <= max_latency)%Q /\
            snd p ∉ used) pairs.
Proof.
  induction 1 as [k used | k used t rest i r pairs unmatched used' Hnear Hg IH
                  | k used t rest pairs unmatched used' Hnone Hg IH].
  - constructor.
  - destruct Hnear as (Hin & (Hfree & Hlt & Hle) & _).
    constructor.
    + cbn. repeat split; try assumption. now left.
    + eapply Forall_impl; [exact IH|].
      intros p (H1 & H2 & H3 & H4 & H5 & H6). cbn [enumerate_from].
      repeat split; try assumption; [now right | set_solver].
  - eapply Forall_impl; [exact IH|].
    intros p (H1 & H2 & H3 & H4 & H5 & H6). cbn [enumerate_from].
    repeat split; try assumption. now right.
Qed.

Lemma nearest_unique used t i r i' r' :
  nearest used max_latency t rx_triggers i r ->
  nearest used max_latency t rx_triggers i' r' ->
  i = i' /\ r = r'.
Proof.
  intros (Hin & Hc & Hmin) (Hin' & Hc' & Hmin').
  destruct (Hmin i' r' Hin' Hc') as [Hle Hidx].
  destruct (Hmin' i r Hin Hc) as [Hle' Hidx'].
  assert (i = i') as <- by (specialize (Hidx Hle'); specialize (Hidx' Hle); lia).
  split; [reflexivity|].
  exact (enumerate_from_functional _ _ _ _ _ Hin Hin').
Qed.

(** The greedy pairing is determined by the inputs. *)
Lemma greedy_functional k used txs pairs unmatched used' :
  greedy rx_triggers max_latency k used txs pairs unmatched used' ->
  forall pairs2 unmatched2 used2,
    greedy rx_triggers max_latency k used txs pairs2 unmatched2 used2 ->
    pairs = pairs2 /\ unmatched = unmatched2 /\ used' = used2.
Proof.
  induction 1 as [k used | k used t rest i r pairs unmatched used' Hnear Hg IH
                  | k used t rest pairs unmatched used' Hnone Hg IH];
    intros pairs2 unmatched2 used2 H2; inversion H2; subst.
  - repeat split.
  - match goal with Hn : nearest _ _ _ _ _ _ |- _ =>
      destruct (nearest_unique _ _ _ _ _ _ Hnear Hn) as [<- <-] end.
    match goal with Hr : greedy _ _ _ _ _ _ _ _ |- _ =>
      destruct (IH _ _ _ Hr) as (-> & -> & ->) end.
    repeat split.
  - exfalso. destruct Hnear as (Hin & Hc & _).
    match goal with Hn : forall j rx_j, _ -> ~ _ |- _ => exact (Hn _ _ Hin Hc) end.
  - exfalso.
    match goal with Hn : nearest _ _ _ _ _ _ |- _ =>
      destruct Hn as (Hin & Hc & _) end.
    exact (Hnone _ _ Hin Hc).
  - match goal with Hr : greedy _ _ _ _ _ _ _ _ |- _ =>
      destruct (IH _ _ _ Hr) as (-> & -> & ->) end.
    repeat split.
Qed.

(** The receive indices a greedy pairing consumes are new and pairwise
    distinct, and they are what it adds to the consumed set. *)
Lemma greedy_consumed k used txs pairs unmatched used' :
  greedy rx_triggers max_latency k used txs pairs unmatched used' ->
  used' = used ∪ list_to_set (map snd pairs) /\
  List.NoDup (map snd pairs) /\
  Forall (fun i => i ∉ used) (map snd pairs).
Proof.
  induction 1 as [k used | k used t rest i r pairs unmatched used' Hnear Hg IH
                  | k used t rest pairs unmatched used' Hnone Hg IH].
  - cbn. split; [now rewrite (right_id_L ∅ (∪))|]. split; constructor.
  - destruct IH as (-> & Hnd & Hall). destruct Hnear as (_ & (Hfree & _) & _).
    cbn [map snd list_to_set]. split; [now rewrite (assoc_L (∪))|]. split.
    + constructor; [|assumption].
      intros Hin. rewrite Forall_forall in Hall.
      apply list_elem_of_In, Hall in Hin. set_solver.
    + constructor; [assumption|].
      eapply Forall_impl; [exact Hall|]. intros j Hj. set_solver.
  - exact IH.
Qed.

(** Packet numbers of a greedy pairing grow strictly, from [k] on. *)
Lemma greedy_packet_nums k used txs pairs unmatched used' :
  greedy rx_triggers max_latency k used txs pairs unmatched used' ->
  StronglySorted Z.lt (map packet_num (map fst pairs)) /\
  Forall (fun n => k <= n) (map packet_num (map fst pairs)).
Proof.
  induction 1 as [k used | k used t rest i r pairs unmatched used' Hnear Hg IH
                  | k used t rest pairs unmatched used' Hnone Hg IH].
  - split; constructor.
  - destruct IH as (Hs & Hge). cbn [map fst packet_num LatencyMeasurement_init]. split.
    + constructor; [assumption|].
      eapply Forall_impl; [exact Hge|]. intros n Hn. cbn beta in Hn. lia.
    + constructor; [lia|].
      eapply Forall_impl; [exact Hge|]. intros n Hn. cbn beta in Hn. lia.
  - destruct IH as (Hs & Hge). split; [assumption|].
    eapply Forall_impl; [exact Hge|]. intros n Hn. cbn beta in Hn. lia.
Qed.

(** Every send event is paired or reported unmatched. *)
Lemma greedy_count k used txs pairs unmatched used' :
  greedy rx_triggers max_latency k used txs pairs unmatched used' ->
  (length pairs + length unmatched = length txs)%nat.
Proof.
  induction 1; cbn [length]; lia.
Qed.
End Matching.

Lemma Forall_pairs_Forall2 {A B : Type} (P : A -> B -> Prop) (l : list (A * B)) :
  Forall (fun p => P (fst p) (snd p)) l -> Forall2 P (map fst l) (map snd l).
Proof.
  induction 1; cbn [map]; constructor; assumption.
Qed.

Lemma bounded_indices_length (l : list Z) (n : nat) :
  List.NoDup l ->
  Forall (fun i => 0 <= i < Z.of_nat n) l ->
  (length l <= n)%nat.
Proof.
  intros Hnd Hall.
  pose proof (NoDup_incl_length (l' := map Z.of_nat (seq 0 n)) Hnd) as Hlen.
  rewrite length_map, length_seq in Hlen. apply Hlen.
  intros i Hi. rewrite Forall_forall in Hall.
  apply list_elem_of_In, Hall in Hi.
  apply in_map_iff. exists (Z.to_nat i). split; [lia|].
  apply in_seq. lia.
Qed.

(** Every measurement of the loop is a causal, bounded pair. *)
Lemma measurements_sound (tx_triggers rx_triggers : list Q) (max_latency : Q) :
  Forall (fun m => latency m = (rx_time m - tx_time m)%Q /\
                   (tx_time m < rx_time m)%Q /\
                   (rx_time m - tx_time m <= max_latency)%Q)
         (measurements (match_loop tx_triggers rx_triggers max_latency)).
Proof.
  destruct (match_loop_greedy rx_triggers max_latency tx_triggers)
    as (pairs & unmatched & Hg & -> & _).
  apply greedy_pairs in Hg. apply List.Forall_map.
  eapply Forall_impl; [exact Hg|].
  intros p (_ & _ & Hlat & Hlt & Hle & _). repeat split; assumption.
Qed.

(** ** The matcher: theorems *)

(** C1: the matcher takes the send events in order, and for each one the
    receive events not yet consumed that are later than it and within
    [max_latency] are exactly its candidates; it pairs the send event with
    the nearest one (smallest latency, lowest index among equals), emits
    the measurement and consumes that receive event.  The returned list is
    the greedy pairing, and the only one. *)
Theorem match_triggers_greedy_nearest :
  forall (tx_triggers rx_triggers : list Q) (max_latency : Q),
    (0 < max_latency)%Q ->
    exists pairs unmatched,
      greedy rx_triggers max_latency 0 ∅ tx_triggers pairs unmatched
        (used_rx_indices (match_loop tx_triggers rx_triggers max_latency)) /\
      returned (match_triggers_and_calculate_latency
                  tx_triggers rx_triggers max_latency) = map fst pairs /\
      forall pairs' unmatched' used',
        greedy rx_triggers max_latency 0 ∅ tx_triggers pairs' unmatched' used' ->
        pairs' = pairs /\ unmatched' = unmatched.
Proof.
  intros tx_triggers rx_triggers max_latency _.
  destruct (match_loop_greedy rx_triggers max_latency tx_triggers)
    as (pairs & unmatched & Hg & Hms & _).
  exists pairs, unmatched. split; [exact Hg|]. split; [exact Hms|].
  intros pairs' unmatched' used' Hg'.
  destruct (greedy_functional _ _ _ _ _ _ _ _ Hg' _ _ _ Hg) as (-> & -> & _).
  split; reflexivity.
Qed.

Lemma match_triggers_greedy_nearest_witness :
  (0 < 100)%Q /\
  exists pairs unmatched,
    greedy [2; 12]%Q 100%Q 0 ∅ [0; 10]%Q pairs unmatched
      (used_rx_indices (match_loop [0; 10]%Q [2; 12]%Q 100%Q)) /\
    returned (match_triggers_and_calculate_latency [0; 10]%Q [2; 12]%Q 100%Q) =
      map fst pairs /\
    forall pairs' unmatched' used',
      greedy [2; 12]%Q 100%Q 0 ∅ [0; 10]%Q pairs' unmatched' used' ->
      pairs' = pairs /\ unmatched' = unmatched.
Proof.
  split; [reflexivity|].
  apply (match_triggers_greedy_nearest [0; 10]%Q [2; 12]%Q 100%Q). reflexivity.
Defined.

(** C2: with a positive bound, every measurement the matcher returns has
    [latency = rx_time - tx_time], [rx_time > tx_time] and
    [0 < latency <= max_latency]. *)
Theorem measurement_causal_and_bounded :
  forall (tx_triggers rx_triggers : list Q) (max_latency : Q) (m : LatencyMeasurement),
    (0 < max_latency)%Q ->
    In m (returned (match_triggers_and_calculate_latency
                      tx_triggers rx_triggers max_latency)) ->
    latency m = (rx_time m - tx_time m)%Q /\
    (tx_time m < rx_time m)%Q /\
    (0 < latency m)%Q /\
    (latency m <= max_latency)%Q.
Proof.
  intros tx_triggers rx_triggers max_latency m _ Hin.
  pose proof (measurements_sound tx_triggers rx_triggers max_latency) as Hall.
  rewrite Forall_forall in Hall.
  destruct (Hall m) as (Hlat & Hlt & Hle); [now apply list_elem_of_In|].
  rewrite Hlat. repeat split; [assumption|lra|assumption].
Qed.

Lemma measurement_causal_and_bounded_witness :
  (0 < 100)%Q /\
  In (LatencyMeasurement_init 1 10 12)
     (returned (match_triggers_and_calculate_latency [0; 10]%Q [2; 12]%Q 100%Q)) /\
  latency (LatencyMeasurement_init 1 10 12) = (12 - 10)%Q /\
  (10 < 12)%Q /\
  (0 < latency (LatencyMeasurement_init 1 10 12))%Q /\
  (latency (LatencyMeasurement_init 1 10 12) <= 100)%Q.
Proof.
  assert (Hpos : (0 < 100)%Q) by reflexivity.
  assert (Hin : In (LatencyMeasurement_init 1 10 12)
            (returned (match_triggers_and_calculate_latency [0; 10]%Q [2; 12]%Q 100%Q))).
  { vm_compute. right. left. reflexivity. }
  split; [exact Hpos|]. split; [exact Hin|].
  exact (measurement_causal_and_bounded [0; 10]%Q [2; 12]%Q 100%Q _ Hpos Hin).
Defined.

(** C10: whatever the order of the two timestamp lists and whatever the
    bound, every measurement returned satisfies [rx_time > tx_time] and
    [rx_time - tx_time <= max_latency]. *)
Theorem measurements_sound_on_unsorted_input :
  forall (tx_triggers rx_triggers : list Q) (max_latency : Q),
    Forall (fun m => (tx_time m < rx_time m)%Q /\
                     (rx_time m - tx_time m <= max_latency)%Q)
           (returned (match_triggers_and_calculate_latency
                        tx_triggers rx_triggers max_latency)).
Proof.
  intros tx_triggers rx_triggers max_latency.
  eapply Forall_impl; [apply measurements_sound|].
  intros m (_ & Hlt & Hle). split; assumption.
Qed.

(** C9: the pairing is one-to-one by position.  The receive indices
    consumed, one per measurement and in the same order, are pairwise
    distinct and are the final consumed set; packet numbers are the
    enumeration indices of the send events and grow strictly; there are
    at most as many measurements as send events and as receive events. *)
Theorem match_triggers_one_to_one :
  forall (tx_triggers rx_triggers : list Q) (max_latency : Q),
    exists consumed : list Z,
      Forall2 (fun m i => In (i, rx_time m) (enumerate rx_triggers))
              (returned (match_triggers_and_calculate_latency
                           tx_triggers rx_triggers max_latency))
              consumed /\
      used_rx_indices (match_loop tx_triggers rx_triggers max_latency) =
        list_to_set consumed /\
      List.NoDup consumed /\
      StronglySorted Z.lt
        (map packet_num
             (returned (match_triggers_and_calculate_latency
                          tx_triggers rx_triggers max_latency))) /\
      Forall (fun m => In (packet_num m, tx_time m) (enumerate tx_triggers))
             (returned (match_triggers_and_calculate_latency
                          tx_triggers rx_triggers max_latency)) /\
      (length (returned (match_triggers_and_calculate_latency
                           tx_triggers rx_triggers max_latency))
       <= Nat.min (length tx_triggers) (length rx_triggers))%nat.
Proof.
  intros tx_triggers rx_triggers max_latency.
  unfold match_triggers_and_calculate_latency, returned. cbn [fst].
  destruct (match_loop_greedy rx_triggers max_latency tx_triggers)
    as (pairs & unmatched & Hg & -> & _).
  pose proof (greedy_pairs _ _ _ _ _ _ _ _ Hg) as Hpairs.
  destruct (greedy_consumed _ _ _ _ _ _ _ _ Hg) as (Hused & Hnd & _).
  destruct (greedy_packet_nums _ _ _ _ _ _ _ _ Hg) as (Hsorted & _).
  pose proof (greedy_count _ _ _ _ _ _ _ _ Hg) as Hcount.
  exists (map snd pairs).
  split.
  { apply (Forall_pairs_Forall2
             (fun m i => In (i, rx_time m) (enumerate rx_triggers))).
    eapply Forall_impl; [exact Hpairs|]. intros p (_ & H & _). exact H. }
  split; [now rewrite Hused, (left_id_L ∅ (∪))|].
  split; [exact Hnd|]. split; [exact Hsorted|]. split.
  { apply List.Forall_map. eapply Forall_impl; [exact Hpairs|].
    intros p (H & _). exact H. }
  rewrite length_map.
  apply Nat.min_glb; [lia|].
  rewrite <- (length_map snd).
  apply bounded_indices_length; [exact Hnd|].
  apply List.Forall_map. eapply Forall_impl; [exact Hpairs|].
  intros p (_ & H & _). apply enumerate_from_index in H. lia.
Qed.

(** ** Distinct receive times *)

Lemma pairwise_distinct_lookup (l : list Q) :
  pairwise_distinct l = true ->
  forall (a b : nat) (x y : Q),
    l !! a = Some x -> l !! b = Some y -> (x == y)%Q -> a = b.
Proof.
  induction l as [|h l IH]; intros Hd a b x y Ha Hb Heq; [discriminate|].
  cbn [pairwise_distinct] in Hd. apply andb_true_iff in Hd as [Hh Hl].
  rewrite forallb_forall in Hh.
  assert (Hhead : forall (c : nat) (z : Q), l !! c = Some z -> ~ (h == z)%Q).
  { intros c z Hc Hhz. apply list_elem_of_lookup_2, list_elem_of_In, Hh in Hc.
    apply negb_true_iff in Hc. apply Qeq_bool_iff in Hhz. congruence. }
  destruct a as [|a], b as [|b]; cbn in Ha, Hb.
  - reflexivity.
  - injection Ha as <-. exfalso. exact (Hhead _ _ Hb Heq).
  - injection Hb as <-. exfalso. apply (Hhead _ _ Ha). now symmetry.
  - f_equal. exact (IH Hl _ _ _ _ Ha Hb Heq).
Qed.

(** C5 (as the code has it): consumption is by position, so when the
    receive timestamps are pairwise distinct no two measurements share a
    [rx_time]. *)
Theorem measurements_distinct_receive_times :
  forall (tx_triggers rx_triggers : list Q) (max_latency : Q)
         (a b : nat) (ma mb : LatencyMeasurement),
    pairwise_distinct rx_triggers = true ->
    returned (match_triggers_and_calculate_latency
                tx_triggers rx_triggers max_latency) !! a = Some ma ->
    returned (match_triggers_and_calculate_latency
                tx_triggers rx_triggers max_latency) !! b = Some mb ->
    a <> b ->
    ~ (rx_time ma == rx_time mb)%Q.
Proof.
  intros tx_triggers rx_triggers max_latency a b ma mb Hd Ha Hb Hab Heq.
  unfold match_triggers_and_calculate_latency, returned in Ha, Hb. cbn [fst] in Ha, Hb.
  destruct (match_loop_greedy rx_triggers max_latency tx_triggers)
    as (pairs & unmatched & Hg & Hms & _).
  rewrite Hms in Ha, Hb.
  pose proof (greedy_pairs _ _ _ _ _ _ _ _ Hg) as Hpairs.
  destruct (greedy_consumed _ _ _ _ _ _ _ _ Hg) as (_ & Hnd & _).
  change (map fst pairs) with (fst <$> pairs) in Ha, Hb.
  rewrite list_lookup_fmap in Ha, Hb.
  destruct (pairs !! a) as [[ma' ia]|] eqn:Hpa; [|discriminate].
  destruct (pairs !! b) as [[mb' ib]|] eqn:Hpb; [|discriminate].
  cbn in Ha, Hb. injection Ha as ->. injection Hb as ->.
  rewrite Forall_forall in Hpairs.
  destruct (Hpairs _ (list_elem_of_lookup_2 _ _ _ Hpa)) as (_ & Hia & _).
  destruct (Hpairs _ (list_elem_of_lookup_2 _ _ _ Hpb)) as (_ & Hib & _).
  cbn [fst snd] in Hia, Hib.
  apply enumerate_from_lookup in Hia as [Hia0 Hia], Hib as [Hib0 Hib].
  pose proof (pairwise_distinct_lookup _ Hd _ _ _ _ Hia Hib Heq) as Hidx.
  assert (ia = ib) as -> by lia.
  apply Hab. apply NoDup_ListNoDup in Hnd.
  apply (NoDup_lookup (map snd pairs) a b ib Hnd).
  - change (map snd pairs) with (snd <$> pairs). now rewrite list_lookup_fmap, Hpa.
  - change (map snd pairs) with (snd <$> pairs). now rewrite list_lookup_fmap, Hpb.
Qed.

Lemma measurements_distinct_receive_times_witness :
  pairwise_distinct [2; 12]%Q = true /\
  returned (match_triggers_and_calculate_latency [0; 10]%Q [2; 12]%Q 100%Q) !! 0%nat =
    Some (LatencyMeasurement_init 0 0 2) /\
  returned (match_triggers_and_calculate_latency [0; 10]%Q [2; 12]%Q 100%Q) !! 1%nat =
    Some (LatencyMeasurement_init 1 10 12) /\
  0%nat <> 1%nat /\
  ~ (2 == 12)%Q.
Proof.
  assert (Hd : pairwise_distinct [2; 12]%Q = true) by reflexivity.
  assert (Ha : returned (match_triggers_and_calculate_latency
                           [0; 10]%Q [2; 12]%Q 100%Q) !! 0%nat =
               Some (LatencyMeasurement_init 0 0 2)) by (vm_compute; reflexivity).
  assert (Hb : returned (match_triggers_and_calculate_latency
                           [0; 10]%Q [2; 12]%Q 100%Q) !! 1%nat =
               Some (LatencyMeasurement_init 1 10 12)) by (vm_compute; reflexivity).
  assert (Hab : 0%nat <> 1%nat) by lia.
  split; [exact Hd|]. split; [exact Ha|]. split; [exact Hb|]. split; [exact Hab|].
  exact (measurements_distinct_receive_times _ _ _ _ _ _ _ Hd Ha Hb Hab).
Defined.

(** C5, refuted as stated: two receive events at the same time 2 are both
    consumed, by the send events at 0 and at 1, and the two measurements
    share [rx_time = 2]. *)
Lemma measurements_share_receive_time_counterexample :
  exists ma mb,
    returned (match_triggers_and_calculate_latency [0; 1]%Q [2; 2]%Q 100%Q) =
      [ma; mb] /\
    rx_time ma = rx_time mb.
Proof.
  exists (LatencyMeasurement_init 0 0 2), (LatencyMeasurement_init 1 1 2).
  split; [vm_compute|]; reflexivity.
Qed.

(** ** Unmatched send events *)

Lemma enumerate_from_app {A : Type} (l l' : list A) :
  forall start : Z,
    enumerate_from start (l ++ l') =
    enumerate_from start l ++ enumerate_from (start + Z.of_nat (length l)) l'.
Proof.
  induction l as [|a l IH]; intros start; cbn [app enumerate_from length].
  - now rewrite Z.add_0_r.
  - rewrite IH. do 3 f_equal. lia.
Qed.

Lemma find_best_no_candidate (used : gset Z) (max_latency tx_time : Q)
    (rx_triggers : list Q) :
  (forall j rx_j, In (j, rx_j) (enumerate rx_triggers) ->
                  ~ candidate used max_latency tx_time j rx_j) ->
  best_match (find_best used max_latency tx_time rx_triggers) = None.
Proof.
  intros Hnone.
  destruct (find_best_cases used max_latency tx_time rx_triggers)
    as [[Hn _] | (i & r & _ & _ & Hin & Hc & _)]; [exact Hn|].
  exfalso. exact (Hnone _ _ Hin Hc).
Qed.

(** C7 (as the code has it): a send event for which no receive event
    qualifies is reported by a warning on the standard output, carrying
    its index and time; no measurement carries its index; and the loop
    goes on with the send events after it, from a state in which only the
    output has changed. *)
Theorem unmatched_send_warned_and_skipped :
  forall (rx_triggers : list Q) (max_latency : Q)
         (earlier : list Q) (tx_time : Q) (later : list Q),
    (forall j rx_j,
        In (j, rx_j) (enumerate rx_triggers) ->
        ~ candidate (used_rx_indices (match_loop earlier rx_triggers max_latency))
                    max_latency tx_time j rx_j) ->
    In (warn_no_match (Z.of_nat (length earlier)) tx_time)
       (printed (match_triggers_and_calculate_latency
                   (earlier ++ tx_time :: later) rx_triggers max_latency)) /\
    (forall m,
        In m (returned (match_triggers_and_calculate_latency
                          (earlier ++ tx_time :: later) rx_triggers max_latency)) ->
        packet_num m <> Z.of_nat (length earlier)) /\
    match_loop (earlier ++ tx_time :: later) rx_triggers max_latency =
      fold_left (match_tx rx_triggers max_latency)
        (enumerate_from (Z.of_nat (length earlier) + 1) later)
        {| measurements :=
             measurements (match_loop earlier rx_triggers max_latency);
           used_rx_indices :=
             used_rx_indices (match_loop earlier rx_triggers max_latency);
           stdout :=
             stdout (match_loop earlier rx_triggers max_latency) ++
             [warn_no_match (Z.of_nat (length earlier)) tx_time] |}.
Proof.
  intros rx_triggers max_latency earlier tx_time later Hnone.
  set (k := Z.of_nat (length earlier)).
  set (before := match_loop earlier rx_triggers max_latency) in *.
  set (skipped := {| measurements := measurements before;
                     used_rx_indices := used_rx_indices before;
                     stdout := stdout before ++ [warn_no_match k tx_time] |}).
  assert (Hloop : match_loop (earlier ++ tx_time :: later) rx_triggers max_latency =
                  fold_left (match_tx rx_triggers max_latency)
                            (enumerate_from (k + 1) later) skipped).
  { unfold match_loop, enumerate.
    rewrite enumerate_from_app, fold_left_app. cbn [enumerate_from fold_left].
    fold (enumerate earlier). fold (match_loop earlier rx_triggers max_latency).
    fold before. rewrite Z.add_0_l. fold k.
    rewrite (match_tx_none rx_triggers max_latency before k tx_time
               (find_best_no_candidate _ _ _ _ Hnone)).
    reflexivity. }
  destruct (fold_match_tx_greedy rx_triggers max_latency later (k + 1) skipped)
    as (pairs & unmatched & Hg & Hms & Hout).
  rewrite <- Hloop in Hg, Hms, Hout. cbn [measurements stdout skipped] in Hms, Hout.
  split; [|split; [|exact Hloop]].
  - unfold match_triggers_and_calculate_latency, printed. cbn [snd].
    rewrite Hout. apply in_app_iff. left. apply in_app_iff. left.
    apply in_app_iff. right. now left.
  - unfold match_triggers_and_calculate_latency, returned. cbn [fst].
    rewrite Hms. intros m [Hm | Hm]%in_app_iff.
    + destruct (match_loop_greedy rx_triggers max_latency earlier)
        as (pairs0 & unmatched0 & Hg0 & Hms0 & _).
      fold before in Hms0. rewrite Hms0 in Hm.
      apply in_map_iff in Hm as (p & <- & Hp).
      pose proof (greedy_pairs _ _ _ _ _ _ _ _ Hg0) as Hall.
      rewrite Forall_forall in Hall.
      apply list_elem_of_In, Hall in Hp. destruct Hp as (Hidx & _).
      apply enumerate_from_index in Hidx. subst k. lia.
    + destruct (greedy_packet_nums _ _ _ _ _ _ _ _ Hg) as (_ & Hge).
      rewrite Forall_forall in Hge.
      assert (Hn : In (packet_num m) (map packet_num (map fst pairs)))
        by now apply in_map.
      apply list_elem_of_In, Hge in Hn. lia.
Qed.

Lemma unmatched_send_warned_and_skipped_witness :
  (forall j rx_j,
      In (j, rx_j) (enumerate [50; 61]%Q) ->
      ~ candidate (used_rx_indices (match_loop [] [50; 61]%Q 10%Q))
                  10%Q 0%Q j rx_j) /\
  In (warn_no_match 0 0%Q)
     (printed (match_triggers_and_calculate_latency [0; 45; 60]%Q [50; 61]%Q 10%Q)) /\
  returned (match_triggers_and_calculate_latency [0; 45; 60]%Q [50; 61]%Q 10%Q) =
    [LatencyMeasurement_init 1 45 50; LatencyMeasurement_init 2 60 61].
Proof.
  assert (Hnone : forall j rx_j,
            In (j, rx_j) (enumerate [50; 61]%Q) ->
            ~ candidate (used_rx_indices (match_loop [] [50; 61]%Q 10%Q))
                        10%Q 0%Q j rx_j).
  { intros j rx_j [E | [E | []]] (_ & _ & Hle); injection E as <- <-;
      revert Hle; unfold Qle; cbn; lia. }
  split; [exact Hnone|].
  split; [|vm_compute; reflexivity].
  exact (proj1 (unmatched_send_warned_and_skipped
                  [50; 61]%Q 10%Q [] 0%Q [45; 60]%Q Hnone)).
Defined.

(** C7, refuted as stated: the value the matcher returns holds the
    measurements only.  It is the same empty list for the send events [0]
    and [1], whose unmatched events differ; the unmatched event is on the
    standard output. *)
Lemma unmatched_send_not_returned_counterexample :
  returned (match_triggers_and_calculate_latency [0]%Q [50]%Q 10%Q) = [] /\
  returned (match_triggers_and_calculate_latency [1]%Q [50]%Q 10%Q) = [] /\
  In (warn_no_match 0 0%Q)
     (printed (match_triggers_and_calculate_latency [0]%Q [50]%Q 10%Q)) /\
  ~ In (warn_no_match 0 0%Q)
       (printed (match_triggers_and_calculate_latency [1]%Q [50]%Q 10%Q)).
Proof.
  split; [vm_compute; reflexivity|]. split; [vm_compute; reflexivity|].
  split.
  - vm_compute. right. left. reflexivity.
  - vm_compute. intros [H | [H | [H | []]]]; discriminate H.
Qed.

(** ** Report builder: proofs *)

Lemma fold_min_least (rest : list Q) :
  forall x : Q,
    In (fold_left (fun m y => if Qltb y m then y else m) rest x) (x :: rest) /\
    Forall (fun y => (fold_left (fun m y => if Qltb y m then y else m) rest x <= y)%Q)
           (x :: rest).
Proof.
  induction rest as [|y rest IH]; intros x; cbn [fold_left].
  - split; [now left|]. constructor; [lra|constructor].
  - destruct (IH (if Qltb y x then y else x)) as [Hin Hall].
    inversion Hall as [|? ? Hhead Hrest]; subst. split.
    + destruct Hin as [E | Hin]; [|right; now right].
      rewrite <- E. destruct (Qltb y x); [right|]; now left.
    + destruct (Qltb y x) eqn:Hyx.
      * apply Qltb_true in Hyx.
        constructor; [lra|]. constructor; assumption.
      * apply Qltb_false in Hyx.
        constructor; [assumption|]. constructor; [lra|assumption].
Qed.

Lemma fold_max_greatest (rest : list Q) :
  forall x : Q,
    In (fold_left (fun m y => if Qltb m y then y else m) rest x) (x :: rest) /\
    Forall (fun y => (y <= fold_left (fun m y => if Qltb m y then y else m) rest x)%Q)
           (x :: rest).
Proof.
  induction rest as [|y rest IH]; intros x; cbn [fold_left].
  - split; [now left|]. constructor; [lra|constructor].
  - destruct (IH (if Qltb x y then y else x)) as [Hin Hall].
    inversion Hall as [|? ? Hhead Hrest]; subst. split.
    + destruct Hin as [E | Hin]; [|right; now right].
      rewrite <- E. destruct (Qltb x y); [right|]; now left.
    + destruct (Qltb x y) eqn:Hxy.
      * apply Qltb_true in Hxy.
        constructor; [lra|]. constructor; assumption.
      * apply Qltb_false in Hxy.
        constructor; [assumption|]. constructor; [lra|assumption].
Qed.

Section ReportProofs.
Variable py_sum : list Q -> Q.
Variable float_div : Q -> Z -> Q.

Lemma generate_markdown_table_cons (m : LatencyMeasurement)
    (rest : list LatencyMeasurement) :
  generate_markdown_table py_sum float_div (m :: rest) =
  Ok (table_summary
        (Z.of_nat (length (m :: rest)))
        (float_div (py_sum (map latency (m :: rest)))
                   (Z.of_nat (length (m :: rest))))
        (fold_left (fun a y => if Qltb y a then y else a)
                   (map latency rest) (latency m))
        (fold_left (fun a y => if Qltb a y then y else a)
                   (map latency rest) (latency m)) ++
      table_head ++
      flat_map table_row (m :: rest) ++
      table_foot
        (float_div (py_sum (map latency (m :: rest)))
                   (Z.of_nat (length (m :: rest))))
        (fold_left (fun a y => if Qltb y a then y else a)
                   (map latency rest) (latency m))
        (fold_left (fun a y => if Qltb a y then y else a)
                   (map latency rest) (latency m))).
Proof.
  unfold generate_markdown_table, py_div. cbn [map length].
  replace (Z.of_nat (S (length (map latency rest))) =? 0) with false
    by (symmetry; apply Z.eqb_neq; lia).
  rewrite length_map. reflexivity.
Qed.

(** The rows of the table are one line each, in the order of the
    measurements. *)
Lemma lines_from_rows (measurements : list LatencyMeasurement) (tail : list Piece) :
  lines_from [] (flat_map table_row measurements ++ tail) =
  map (fun x => [Text "| "; Int (packet_num x);
                 Text " | "; Real 2 (tx_time x);
                 Text " | "; Real 2 (rx_time x);
                 Text " | "; Real 2 (latency x);
                 Text " |"])
      measurements ++
  lines_from [] tail.
Proof.
  induction measurements as [|x l IH]; [reflexivity|].
  cbn [flat_map table_row app lines_from map]. now rewrite IH.
Qed.

(** The text of the report of a non-empty sequence, line by line. *)
Lemma generate_markdown_table_lines (m : LatencyMeasurement)
    (rest : list LatencyMeasurement) :
  exists text,
    generate_markdown_table py_sum float_div (m :: rest) = Ok text /\
    text_lines text =
      [ [Text "## UDP Latency Analysis Results"];
        [];
        [Text "**Summary Statistics:**"];
        [Text "- Total Packets: "; Int (Z.of_nat (length (m :: rest)))];
        [Text "- Average Latency: "; Real 3 (float_div (py_sum (map latency (m :: rest)))
                   (Z.of_nat (length (m :: rest)))); Text " ms"];
        [Text "- Minimum Latency: "; Real 3 (fold_left (fun a y => if Qltb y a then y else a)
                   (map latency rest) (latency m)); Text " ms"];
        [Text "- Maximum Latency: "; Real 3 (fold_left (fun a y => if Qltb a y then y else a)
                   (map latency rest) (latency m)); Text " ms"];
        [];
        [Text "| Packet Number | TX Trigger Time (ms) | RX Trigger Time (ms) | Latency (ms) |"];
        [Text "|---------------|---------------------|---------------------|-------------|"] ] ++
      map (fun x => [Text "| "; Int (packet_num x);
                     Text " | "; Real 2 (tx_time x);
                     Text " | "; Real 2 (rx_time x);
                     Text " | "; Real 2 (latency x);
                     Text " |"])
          (m :: rest) ++
      [ [Text "|---------------|---------------------|---------------------|-------------|"];
        [Text "| **Average** | - | - | **"; Real 2 (float_div (py_sum (map latency (m :: rest)))
                   (Z.of_nat (length (m :: rest)))); Text "** |"];
        [Text "| **Minimum** | - | - | **"; Real 2 (fold_left (fun a y => if Qltb y a then y else a)
                   (map latency rest) (latency m)); Text "** |"];
        [Text "| **Maximum** | - | - | **"; Real 2 (fold_left (fun a y => if Qltb a y then y else a)
                   (map latency rest) (latency m)); Text "** |"] ].
Proof.
  eexists. split; [apply generate_markdown_table_cons|].
  unfold text_lines, table_summary, table_head, table_foot, table_rule.
  cbn [app lines_from]. rewrite lines_from_rows. reflexivity.
Qed.
End ReportProofs.

(** C8: on a non-empty sequence the text of the report is, line by line,
    the summary block with the count (the number of measurements), the
    mean (the sum of the latencies divided by the count, in the code's
    arithmetic), the minimum and the maximum (the least and the greatest
    latency), then the table head, one row per measurement in order, and
    the closing rows; no exception is raised.  On the empty sequence the
    report is the sentinel text, and the division by the length, which
    would raise, is not reached. *)
Theorem generate_markdown_table_statistics :
  forall (py_sum : list Q -> Q) (float_div : Q -> Z -> Q),
  generate_markdown_table py_sum float_div [] =
    Ok [Text "No measurements available."] /\
  py_div float_div (py_sum (map latency []))
         (Z.of_nat (length (map latency []))) =
    Raised ZeroDivisionError /\
  forall (m : LatencyMeasurement) (rest : list LatencyMeasurement),
  exists (text : list Piece) (avg_latency min_latency max_latency : Q),
    generate_markdown_table py_sum float_div (m :: rest) = Ok text /\
    avg_latency =
      float_div (py_sum (map latency (m :: rest)))
                (Z.of_nat (length (m :: rest))) /\
    In min_latency (map latency (m :: rest)) /\
    Forall (fun x => (min_latency <= latency x)%Q) (m :: rest) /\
    In max_latency (map latency (m :: rest)) /\
    Forall (fun x => (latency x <= max_latency)%Q) (m :: rest) /\
    text_lines text =
      [ [Text "## UDP Latency Analysis Results"];
        [];
        [Text "**Summary Statistics:**"];
        [Text "- Total Packets: "; Int (Z.of_nat (length (m :: rest)))];
        [Text "- Average Latency: "; Real 3 avg_latency; Text " ms"];
        [Text "- Minimum Latency: "; Real 3 min_latency; Text " ms"];
        [Text "- Maximum Latency: "; Real 3 max_latency; Text " ms"];
        [];
        [Text "| Packet Number | TX Trigger Time (ms) | RX Trigger Time (ms) | Latency (ms) |"];
        [Text "|---------------|---------------------|---------------------|-------------|"] ] ++
      map (fun x => [Text "| "; Int (packet_num x);
                     Text " | "; Real 2 (tx_time x);
                     Text " | "; Real 2 (rx_time x);
                     Text " | "; Real 2 (latency x);
                     Text " |"])
          (m :: rest) ++
      [ [Text "|---------------|---------------------|---------------------|-------------|"];
        [Text "| **Average** | - | - | **"; Real 2 avg_latency; Text "** |"];
        [Text "| **Minimum** | - | - | **"; Real 2 min_latency; Text "** |"];
        [Text "| **Maximum** | - | - | **"; Real 2 max_latency; Text "** |"] ].
Proof.
  intros py_sum float_div.
  split; [reflexivity|]. split; [reflexivity|]. intros m rest.
  destruct (fold_min_least (map latency rest) (latency m)) as [Hmin_in Hmin].
  destruct (fold_max_greatest (map latency rest) (latency m)) as [Hmax_in Hmax].
  destruct (generate_markdown_table_lines py_sum float_div m rest)
    as (text & Hgen & Hlines).
  exists text.
  exists (float_div (py_sum (map latency (m :: rest)))
                    (Z.of_nat (length (m :: rest)))).
  exists (fold_left (fun a y => if Qltb y a then y else a)
                    (map latency rest) (latency m)).
  exists (fold_left (fun a y => if Qltb a y then y else a)
                    (map latency rest) (latency m)).
  split; [exact Hgen|]. split; [reflexivity|].
  split; [exact Hmin_in|].
  split; [exact (proj1 (List.Forall_map latency _ (m :: rest)) Hmin)|].
  split; [exact Hmax_in|].
  split; [exact (proj1 (List.Forall_map latency _ (m :: rest)) Hmax)|].
  exact Hlines.
Qed.

(** ** The pipeline: proofs *)

Lemma delivers_report_is_report (py_sum : list Q -> Q) (float_div : Q -> Z -> Q)
    (e : Effect) :
  delivers_report py_sum float_div e -> is_report e = true.
Proof.
  intros [(path & content & ->) | (ms & table & Hgen & ->)]; [reflexivity|].
  destruct ms as [|m rest].
  - injection Hgen as <-. reflexivity.
  - rewrite generate_markdown_table_cons in Hgen. injection Hgen as <-.
    reflexivity.
Qed.

Lemma not_report_not_delivered (py_sum : list Q -> Q) (float_div : Q -> Z -> Q)
    (effects : list Effect) :
  Forall (fun e => is_report e = false) effects ->
  forall e, In e effects -> ~ delivers_report py_sum float_div e.
Proof.
  intros Hall e Hin Hrep. rewrite Forall_forall in Hall.
  apply list_elem_of_In, Hall in Hin.
  apply delivers_report_is_report in Hrep. congruence.
Qed.

(** What the matcher prints: the opening line, one warning per unmatched
    send event, the closing count.  None of it is a report. *)
Lemma matcher_prints_no_report (tx_triggers rx_triggers : list Q) (max_latency : Q) :
  Forall (fun e => is_report e = false)
         (printed (match_triggers_and_calculate_latency
                     tx_triggers rx_triggers max_latency)) /\
  In (Print [Text "Matching TX and RX triggers..."])
     (printed (match_triggers_and_calculate_latency
                 tx_triggers rx_triggers max_latency)).
Proof.
  unfold match_triggers_and_calculate_latency, printed. cbn [snd].
  destruct (match_loop_greedy rx_triggers max_latency tx_triggers)
    as (pairs & unmatched & _ & _ & ->).
  split.
  - apply Forall_app. split; [|repeat constructor].
    constructor; [reflexivity|].
    apply List.Forall_map. apply Forall_forall. intros u _. reflexivity.
  - apply in_app_iff. left. now left.
Qed.

Lemma parse_prints_no_report (timestamps : list Q) (d0_data d1_data : list Z) :
  Forall (fun e => is_report e = false)
         (printed (parse_csv_file_triggers timestamps d0_data d1_data)) /\
  ~ In (Print [Text "Matching TX and RX triggers..."])
       (printed (parse_csv_file_triggers timestamps d0_data d1_data)).
Proof.
  unfold parse_csv_file_triggers, printed. cbn [snd]. split.
  - repeat constructor.
  - intros [H | [H | [H | []]]]; discriminate H.
Qed.

Lemma main_unfold (py_sum : list Q -> Q) (float_div : Q -> Z -> Q)
    (can_write : string -> bool) (output : option string)
    (max_latency : Q) (timestamps : list Q) (d0_data d1_data : list Z) :
  main py_sum float_div can_write output max_latency timestamps d0_data d1_data =
  (printed (parse_csv_file_triggers timestamps d0_data d1_data) ++
   fst (main_triggers py_sum float_div can_write output max_latency
          (detect_rising_edges timestamps d0_data)
          (detect_rising_edges timestamps d1_data)),
   snd (main_triggers py_sum float_div can_write output max_latency
          (detect_rising_edges timestamps d0_data)
          (detect_rising_edges timestamps d1_data))).
Proof.
  unfold main, parse_csv_file_triggers, printed. cbn [snd].
  destruct (main_triggers _ _ _ _ _ _ _). reflexivity.
Qed.

(** C6: when one of the two detected trigger sequences is empty the run
    ends with exit status 1 after an empty-channel error, and the matcher
    has not started; when both are non-empty and the matcher returns no
    measurement the run ends with exit status 1 after a different error,
    printed after the matcher's output; in neither case is a report
    delivered. *)
Theorem fatal_errors_abort_before_report :
  forall (py_sum : list Q -> Q) (float_div : Q -> Z -> Q)
         (can_write : string -> bool) (output : option string) (max_latency : Q)
         (timestamps : list Q) (d0_data d1_data : list Z),
    (detect_rising_edges timestamps d0_data = [] \/
     detect_rising_edges timestamps d1_data = [] ->
     snd (main py_sum float_div can_write output max_latency timestamps d0_data d1_data) = Exit 1 /\
     (fst (main py_sum float_div can_write output max_latency timestamps d0_data d1_data) =
        printed (parse_csv_file_triggers timestamps d0_data d1_data) ++ [error_no_tx] \/
      fst (main py_sum float_div can_write output max_latency timestamps d0_data d1_data) =
        printed (parse_csv_file_triggers timestamps d0_data d1_data) ++ [error_no_rx]) /\
     ~ In (Print [Text "Matching TX and RX triggers..."])
          (fst (main py_sum float_div can_write output max_latency timestamps d0_data d1_data)) /\
     forall e,
       In e (fst (main py_sum float_div can_write output max_latency timestamps d0_data d1_data)) ->
       ~ delivers_report py_sum float_div e) /\
    (detect_rising_edges timestamps d0_data <> [] ->
     detect_rising_edges timestamps d1_data <> [] ->
     returned (match_triggers_and_calculate_latency
                 (detect_rising_edges timestamps d0_data)
                 (detect_rising_edges timestamps d1_data) max_latency) = [] ->
     snd (main py_sum float_div can_write output max_latency timestamps d0_data d1_data) = Exit 1 /\
     fst (main py_sum float_div can_write output max_latency timestamps d0_data d1_data) =
       printed (parse_csv_file_triggers timestamps d0_data d1_data) ++
       printed (match_triggers_and_calculate_latency
                  (detect_rising_edges timestamps d0_data)
                  (detect_rising_edges timestamps d1_data) max_latency) ++
       [error_no_measurements] /\
     In (Print [Text "Matching TX and RX triggers..."])
        (fst (main py_sum float_div can_write output max_latency timestamps d0_data d1_data)) /\
     error_no_measurements <> error_no_tx /\
     error_no_measurements <> error_no_rx /\
     forall e,
       In e (fst (main py_sum float_div can_write output max_latency timestamps d0_data d1_data)) ->
       ~ delivers_report py_sum float_div e).
Proof.
  intros py_sum float_div can_write output max_latency timestamps d0_data d1_data.
  rewrite main_unfold. cbn [fst snd].
  destruct (parse_prints_no_report timestamps d0_data d1_data) as [Hfound Hquiet].
  set (found := printed (parse_csv_file_triggers timestamps d0_data d1_data)) in *.
  set (tx_triggers := detect_rising_edges timestamps d0_data).
  set (rx_triggers := detect_rising_edges timestamps d1_data).
  split.
  - intros Hempty.
    assert (Hrun : main_triggers py_sum float_div can_write output max_latency tx_triggers rx_triggers =
                     ([error_no_tx], Exit 1) \/
                   main_triggers py_sum float_div can_write output max_latency tx_triggers rx_triggers =
                     ([error_no_rx], Exit 1)).
    { destruct tx_triggers as [|t txs]; [now left|].
      destruct rx_triggers as [|r rxs]; [now right|].
      destruct Hempty; discriminate. }
    destruct Hrun as [-> | ->]; cbn [fst snd];
      (split; [reflexivity|]); (split; [auto|]); split.
    + intros [H | [H | []]]%in_app_iff; [now apply Hquiet|discriminate H].
    + apply not_report_not_delivered, Forall_app. split; [exact Hfound|].
      repeat constructor.
    + intros [H | [H | []]]%in_app_iff; [now apply Hquiet|discriminate H].
    + apply not_report_not_delivered, Forall_app. split; [exact Hfound|].
      repeat constructor.
  - intros Htx Hrx Hnone.
    destruct (matcher_prints_no_report tx_triggers rx_triggers max_latency)
      as [Hprints Hstarted].
    assert (Hrun : main_triggers py_sum float_div can_write output max_latency tx_triggers rx_triggers =
                     (printed (match_triggers_and_calculate_latency
                                 tx_triggers rx_triggers max_latency) ++
                      [error_no_measurements], Exit 1)).
    { unfold main_triggers.
      destruct tx_triggers as [|t txs]; [contradiction|].
      destruct rx_triggers as [|r rxs]; [contradiction|].
      now rewrite Hnone. }
    rewrite Hrun. cbn [fst snd].
    split; [reflexivity|]. split; [reflexivity|].
    split; [apply in_app_iff; right; apply in_app_iff; now left|].
    split; [discriminate|]. split; [discriminate|].
    apply not_report_not_delivered.
    apply Forall_app. split; [exact Hfound|].
    apply Forall_app. split; [exact Hprints|]. repeat constructor.
Qed.

Lemma fatal_errors_abort_before_report_witness :
  (detect_rising_edges [0; 1]%Q [0; 0] = [] \/
   detect_rising_edges [0; 1]%Q [0; 1] = []) /\
  snd (main exact_sum exact_div (fun _ => true) None 300%Q [0; 1]%Q [0; 0] [0; 1]) = Exit 1 /\
  detect_rising_edges [0; 1]%Q [0; 1] <> [] /\
  detect_rising_edges [0; 1]%Q [1; 0] <> [] /\
  returned (match_triggers_and_calculate_latency
              (detect_rising_edges [0; 1]%Q [0; 1])
              (detect_rising_edges [0; 1]%Q [1; 0]) 300%Q) = [] /\
  snd (main exact_sum exact_div (fun _ => true) None 300%Q [0; 1]%Q [0; 1] [1; 0]) = Exit 1.
Proof.
  assert (Hempty : detect_rising_edges [0; 1]%Q [0; 0] = [] \/
                   detect_rising_edges [0; 1]%Q [0; 1] = [])
    by (left; reflexivity).
  assert (Htx : detect_rising_edges [0; 1]%Q [0; 1] <> [])
    by (intros H; vm_compute in H; discriminate H).
  assert (Hrx : detect_rising_edges [0; 1]%Q [1; 0] <> [])
    by (intros H; vm_compute in H; discriminate H).
  assert (Hnone : returned (match_triggers_and_calculate_latency
                              (detect_rising_edges [0; 1]%Q [0; 1])
                              (detect_rising_edges [0; 1]%Q [1; 0]) 300%Q) = [])
    by (vm_compute; reflexivity).
  split; [exact Hempty|].
  split; [exact (proj1 (proj1 (fatal_errors_abort_before_report
                                 exact_sum exact_div (fun _ => true) None 300%Q [0; 1]%Q [0; 0] [0; 1])
                              Hempty))|].
  split; [exact Htx|]. split; [exact Hrx|]. split; [exact Hnone|].
  exact (proj1 (proj2 (fatal_errors_abort_before_report
                         exact_sum exact_div (fun _ => true) None 300%Q [0; 1]%Q [0; 1] [1; 0])
                      Htx Hrx Hnone)).
Defined.

(** * Further properties of the code *)

(** ** Edge detector *)

Lemma rising_edges_loop_acc (samples : list (Q * Z)) :
  forall (prev_value : Z) (acc : list Q),
    rising_edges_loop samples prev_value acc =
    acc ++ rising_edges_loop samples prev_value [].
Proof.
  induction samples as [|[t v] rest IH]; intros p acc; cbn [rising_edges_loop].
  - now rewrite app_nil_r.
  - destruct ((p =? 0) && (v =? 1))%bool.
    + rewrite (IH v (acc ++ [t])), (IH v ([] ++ [t])). now rewrite <- app_assoc.
    + apply IH.
Qed.

Lemma rises_shift (before v : Z) (levels : list Z) (i : nat) :
  rises before (v :: levels) (S i) = rises v levels i.
Proof.
  unfold rises. cbn [nth level_before]. destruct i; reflexivity.
Qed.

Lemma filter_rises_shift (before v : Z) (levels : list Z) (l : list nat) :
  List.filter (rises before (v :: levels)) (map S l) =
  map S (List.filter (rises v levels) l).
Proof.
  induction l as [|a l IH]; [reflexivity|].
  cbn [map List.filter]. rewrite rises_shift, IH.
  destruct (rises v levels a); reflexivity.
Qed.

Lemma rising_edges_loop_positions (timestamps : list Q) :
  forall (levels : list Z) (prev_value : Z),
    rising_edges_loop (zip timestamps levels) prev_value [] =
    map (fun i => nth i timestamps 0%Q)
        (List.filter (rises prev_value levels)
                     (seq 0 (Nat.min (length timestamps) (length levels)))).
Proof.
  induction timestamps as [|t ts IH]; intros levels p; [reflexivity|].
  destruct levels as [|v ls]; [reflexivity|].
  cbn [zip zip_with rising_edges_loop length Nat.min seq].
  rewrite rising_edges_loop_acc, IH.
  rewrite <- seq_shift. cbn [List.filter].
  rewrite filter_rises_shift.
  change (rises p (v :: ls) 0) with ((p =? 0) && (v =? 1))%bool.
  destruct ((p =? 0) && (v =? 1))%bool; cbn [map app];
    rewrite List.map_map; reflexivity.
Qed.

(** X1: for levels that are arbitrary integers and lists of any two
    lengths, the edges are the timestamps of the samples, among the first
    [min] of both lengths, whose level is exactly 1 while the level before
    (0 before the first sample) is exactly 0. *)
Theorem detect_rising_edges_positions :
  forall (timestamps : list Q) (channel_data : list Z),
    detect_rising_edges timestamps channel_data =
    map (fun i => nth i timestamps 0%Q)
        (List.filter (rises 0 channel_data)
                     (seq 0 (Nat.min (length timestamps) (length channel_data)))).
Proof.
  intros timestamps channel_data. unfold detect_rising_edges.
  apply rising_edges_loop_positions.
Qed.

Lemma rising_edges_loop_count (samples : list (Q * Z)) :
  forall prev_value : Z,
    (2 * length (rising_edges_loop samples prev_value []) <=
     length samples + if (prev_value =? 0)%Z then 1 else 0)%nat.
Proof.
  induction samples as [|[t v] rest IH]; intros p; cbn [rising_edges_loop length].
  - lia.
  - rewrite rising_edges_loop_acc, length_app. specialize (IH v).
    destruct (p =? 0) eqn:Hp, (v =? 1) eqn:Hv; cbn [andb length app].
    + apply Z.eqb_eq in Hv. subst v. cbn [Z.eqb] in IH. lia.
    + destruct (v =? 0); lia.
    + destruct (v =? 0); lia.
    + destruct (v =? 0); lia.
Qed.

(** X2: two neighbouring samples never both give an edge, so a recording
    of [n] samples has at most [(n + 1) / 2] edges: twice the number of
    edges is at most [n + 1]. *)
Theorem detect_rising_edges_count :
  forall (timestamps : list Q) (channel_data : list Z),
    (2 * length (detect_rising_edges timestamps channel_data) <=
     Nat.min (length timestamps) (length channel_data) + 1)%nat.
Proof.
  intros timestamps channel_data. unfold detect_rising_edges.
  pose proof (rising_edges_loop_count (zip timestamps channel_data) 0) as H.
  cbn [Z.eqb] in H. now rewrite length_zip in H.
Qed.

Lemma rising_edges_loop_sublist (timestamps : list Q) :
  forall (levels : list Z) (prev_value : Z),
    sublist (rising_edges_loop (zip timestamps levels) prev_value []) timestamps.
Proof.
  induction timestamps as [|t ts IH]; intros levels p.
  - constructor.
  - destruct levels as [|v ls]; [apply sublist_nil_l|].
    cbn [zip zip_with rising_edges_loop]. rewrite rising_edges_loop_acc.
    destruct ((p =? 0) && (v =? 1))%bool; cbn [app].
    + apply sublist_skip, IH.
    + apply sublist_cons, IH.
Qed.

Lemma StronglySorted_sublist {A : Type} (R : A -> A -> Prop) (l1 l2 : list A) :
  sublist l1 l2 -> StronglySorted R l2 -> StronglySorted R l1.
Proof.
  induction 1 as [|x l1 l2 Hsub IH|x l1 l2 Hsub IH]; intros Hs.
  - constructor.
  - inversion Hs as [|? ? Hs2 Hall]; subst. constructor; [now apply IH|].
    rewrite Forall_forall in *. intros y Hy. apply Hall.
    now apply (elem_of_sublist l1 l2).
  - inversion Hs; subst. now apply IH.
Qed.

Lemma StronglySorted_pairwise_distinct (l : list Q) :
  StronglySorted Qlt l -> pairwise_distinct l = true.
Proof.
  induction 1 as [|x l Hs IH Hall]; [reflexivity|].
  cbn [pairwise_distinct]. rewrite IH, andb_true_r.
  apply forallb_forall. intros y Hy. rewrite Forall_forall in Hall.
  apply list_elem_of_In, Hall in Hy. apply negb_true_iff.
  destruct (Qeq_bool x y) eqn:E; [|reflexivity].
  apply Qeq_bool_iff in E. lra.
Qed.

(** X3: the edges are a subsequence of the timestamps, in the order of the
    recording. *)
Theorem detect_rising_edges_sublist :
  forall (timestamps : list Q) (channel_data : list Z),
    sublist (detect_rising_edges timestamps channel_data) timestamps.
Proof.
  intros timestamps channel_data. apply rising_edges_loop_sublist.
Qed.

(** X4: when the timestamps of the recording grow strictly, so do the
    detected edges; they are then pairwise distinct, which is what the
    matcher needs for its measurements to have distinct receive times. *)
Theorem detect_rising_edges_increasing :
  forall (timestamps : list Q) (channel_data : list Z),
    StronglySorted Qlt timestamps ->
    StronglySorted Qlt (detect_rising_edges timestamps channel_data) /\
    pairwise_distinct (detect_rising_edges timestamps channel_data) = true.
Proof.
  intros timestamps channel_data Hs.
  assert (Hedges : StronglySorted Qlt (detect_rising_edges timestamps channel_data)).
  { eapply StronglySorted_sublist; [|exact Hs]. apply rising_edges_loop_sublist. }
  split; [exact Hedges|]. now apply StronglySorted_pairwise_distinct.
Qed.

Lemma detect_rising_edges_increasing_witness :
  StronglySorted Qlt [0; 1; 2]%Q /\
  StronglySorted Qlt (detect_rising_edges [0; 1; 2]%Q [1; 0; 1]) /\
  pairwise_distinct (detect_rising_edges [0; 1; 2]%Q [1; 0; 1]) = true.
Proof.
  assert (Hs : StronglySorted Qlt [0; 1; 2]%Q).
  { repeat constructor; reflexivity. }
  split; [exact Hs|].
  exact (detect_rising_edges_increasing [0; 1; 2]%Q [1; 0; 1] Hs).
Defined.

Lemma rising_edges_loop_constant (timestamps : list Q) (level : Z) :
  forall n : nat,
    level = 0 \/ level = 1 ->
    rising_edges_loop (zip timestamps (repeat level n)) level [] = [].
Proof.
  intros n Hlevel. revert n.
  induction timestamps as [|t ts IH]; intros n; [reflexivity|].
  destruct n as [|n]; [reflexivity|].
  cbn [repeat zip zip_with rising_edges_loop].
  replace ((level =? 0) && (level =? 1))%bool with false
    by (destruct Hlevel; subst; reflexivity).
  apply IH.
Qed.

(** X5: a channel that stays at 0 gives no edge; a channel that stays at 1
    gives exactly one edge, at the first sample of the recording. *)
Theorem detect_rising_edges_constant :
  forall (t : Q) (timestamps : list Q) (n : nat),
    detect_rising_edges (t :: timestamps) (repeat 0 n) = [] /\
    detect_rising_edges (t :: timestamps) (repeat 1 (S n)) = [t].
Proof.
  intros t timestamps n. unfold detect_rising_edges. split.
  - apply (rising_edges_loop_constant (t :: timestamps) 0). now left.
  - cbn [repeat zip zip_with rising_edges_loop Z.eqb andb app].
    rewrite rising_edges_loop_acc.
    rewrite (rising_edges_loop_constant timestamps 1) by now right.
    reflexivity.
Qed.

Lemma last_cons_default {A : Type} (l : list A) :
  forall x d : A, List.last (x :: l) d = List.last l x.
Proof.
  induction l as [|y l IH]; intros x d; [reflexivity|].
  change (List.last (x :: y :: l) d) with (List.last (y :: l) d).
  now rewrite !IH.
Qed.

Lemma rising_edges_loop_app (first second : list (Q * Z)) :
  forall (prev_value : Z) (acc : list Q),
    rising_edges_loop (first ++ second) prev_value acc =
    rising_edges_loop second (List.last (map snd first) prev_value)
                      (rising_edges_loop first prev_value acc).
Proof.
  induction first as [|[t v] rest IH]; intros p acc; [reflexivity|].
  cbn [app rising_edges_loop map snd]. rewrite IH.
  now rewrite last_cons_default.
Qed.

(** X6: a recording cut in two after a sample at level 0 can be analysed
    in two parts: the edges of the whole are the edges of the first part
    followed by the edges of the second. *)
Theorem detect_rising_edges_app :
  forall (timestamps1 timestamps2 : list Q) (levels1 levels2 : list Z),
    length timestamps1 = length levels1 ->
    List.last levels1 0 = 0 ->
    detect_rising_edges (timestamps1 ++ timestamps2) (levels1 ++ levels2) =
    detect_rising_edges timestamps1 levels1 ++
    detect_rising_edges timestamps2 levels2.
Proof.
  intros timestamps1 timestamps2 levels1 levels2 Hlen Hlast.
  unfold detect_rising_edges.
  rewrite (zip_with_app pair timestamps1 timestamps2 levels1 levels2 Hlen).
  rewrite rising_edges_loop_app, rising_edges_loop_acc.
  replace (map snd (zip_with pair timestamps1 levels1)) with levels1.
  - now rewrite Hlast.
  - clear Hlast. revert levels1 Hlen.
    induction timestamps1 as [|t ts IH]; intros [|v ls] Hlen;
      try discriminate; [reflexivity|].
    cbn [zip_with map snd]. f_equal. apply IH. now injection Hlen.
Qed.

Lemma detect_rising_edges_app_witness :
  length [0; 1]%Q = length [1; 0] /\
  List.last [1; 0] 0 = 0 /\
  detect_rising_edges ([0; 1] ++ [2; 3])%Q ([1; 0] ++ [1; 1]) =
  detect_rising_edges [0; 1]%Q [1; 0] ++ detect_rising_edges [2; 3]%Q [1; 1].
Proof.
  assert (Hlen : length [0; 1]%Q = length [1; 0]) by reflexivity.
  assert (Hlast : List.last [1; 0] 0 = 0) by reflexivity.
  split; [exact Hlen|]. split; [exact Hlast|].
  exact (detect_rising_edges_app [0; 1]%Q [2; 3]%Q [1; 0] [1; 1] Hlen Hlast).
Defined.

(** ** Trigger matcher *)

Section MatchingMore.
Variable rx_triggers : list Q.
Variable max_latency : Q.

(** The unmatched send events of a greedy pairing are send events of the
    list, and none of them carries the packet number of a pair. *)
Lemma greedy_unmatched k used txs pairs unmatched used' :
  greedy rx_triggers max_latency k used txs pairs unmatched used' ->
  Forall (fun u => In u (enumerate_from k txs)) unmatched /\
  forall u p, In u unmatched -> In p pairs -> packet_num (fst p) <> fst u.
Proof.
  induction 1 as [k used | k used t rest i r pairs unmatched used' Hnear Hg [IHin IHne]
                  | k used t rest pairs unmatched used' Hnone Hg [IHin IHne]].
  - split; [constructor|]. intros u p [].
  - split.
    + eapply Forall_impl; [exact IHin|]. intros u Hu. now right.
    + intros u p Hu [<- | Hp]; [|now apply IHne].
      rewrite Forall_forall in IHin. apply list_elem_of_In, IHin in Hu.
      destruct u as [ku tu]. apply enumerate_from_index in Hu. cbn. lia.
  - split.
    + constructor; [now left|].
      eapply Forall_impl; [exact IHin|]. intros u Hu. now right.
    + intros u p [<- | Hu] Hp; [|now apply IHne].
      destruct (greedy_packet_nums _ _ _ _ _ _ _ _ Hg) as (_ & Hge).
      rewrite Forall_forall in Hge.
      assert (Hn : In (packet_num (fst p)) (map packet_num (map fst pairs)))
        by (apply in_map; now apply in_map).
      apply list_elem_of_In, Hge in Hn. cbn. lia.
Qed.

(** When no receive event can ever qualify, the greedy pairing is empty
    and every send event is unmatched. *)
Lemma greedy_no_candidates k used txs pairs unmatched used' :
  (forall used0 t j rx_j, In (j, rx_j) (enumerate rx_triggers) ->
                          ~ candidate used0 max_latency t j rx_j) ->
  greedy rx_triggers max_latency k used txs pairs unmatched used' ->
  pairs = [] /\ unmatched = enumerate_from k txs.
Proof.
  intros Hnever.
  induction 1 as [k used | k used t rest i r pairs unmatched used' Hnear Hg IH
                  | k used t rest pairs unmatched used' Hnone Hg IH].
  - split; reflexivity.
  - exfalso. destruct Hnear as (Hin & Hc & _). exact (Hnever _ _ _ _ Hin Hc).
  - destruct IH as [-> ->]. split; reflexivity.
Qed.
End MatchingMore.

Lemma printed_shape (tx_triggers rx_triggers : list Q) (max_latency : Q) :
  match_triggers_and_calculate_latency tx_triggers rx_triggers max_latency =
  (measurements (match_loop tx_triggers rx_triggers max_latency),
   stdout (match_loop tx_triggers rx_triggers max_latency) ++
   [matched_line (length (measurements
                            (match_loop tx_triggers rx_triggers max_latency)))]).
Proof. reflexivity. Qed.

Lemma measured_later (measurements : list LatencyMeasurement) (k : Z) :
  Forall (fun n => k < n) (map packet_num measurements) ->
  measured measurements k = false.
Proof.
  intros Hall. unfold measured.
  destruct (existsb (fun m => packet_num m =? k) measurements) eqn:E;
    [|reflexivity].
  apply existsb_exists in E as (m & Hm & Hk). apply Z.eqb_eq in Hk.
  rewrite Forall_forall in Hall.
  assert (Hn : In (packet_num m) (map packet_num measurements)) by now apply in_map.
  apply list_elem_of_In, Hall in Hn. lia.
Qed.

(** The unmatched send events of a greedy pairing are the send events
    without a pair, in the order of the list. *)
Lemma greedy_unmatched_filter (rx_triggers : list Q) (max_latency : Q)
    k used txs pairs unmatched used' :
  greedy rx_triggers max_latency k used txs pairs unmatched used' ->
  unmatched =
  List.filter (fun u => negb (measured (map fst pairs) (fst u)))
              (enumerate_from k txs).
Proof.
  induction 1 as [k used | k used t rest i r pairs unmatched used' Hnear Hg IH
                  | k used t rest pairs unmatched used' Hnone Hg IH].
  - reflexivity.
  - cbn [enumerate_from List.filter map fst].
    replace (measured (LatencyMeasurement_init k t r :: map fst pairs) k)
      with true
      by (unfold measured; cbn [existsb packet_num LatencyMeasurement_init];
          now rewrite Z.eqb_refl).
    cbn [negb]. rewrite IH. apply List.filter_ext_in.
    intros [ku tu] Hu. apply enumerate_from_index in Hu.
    unfold measured. cbn [existsb packet_num LatencyMeasurement_init fst].
    replace (k =? ku) with false by (symmetry; apply Z.eqb_neq; lia).
    reflexivity.
  - cbn [enumerate_from List.filter fst].
    destruct (greedy_packet_nums _ _ _ _ _ _ _ _ Hg) as (_ & Hge).
    rewrite (measured_later (map fst pairs) k).
    + cbn [negb]. now rewrite IH.
    + eapply Forall_impl; [exact Hge|]. intros n Hn. cbn beta in Hn. lia.
Qed.

(** X7: every send event is either measured or warned about, never both
    and never neither.  The matcher prints its opening line, then one
    warning for each send event that has no measurement, exactly those
    and in the order of the send events, then a closing line with the
    number of measurements; measurements and warnings together are as many
    as the send events. *)
Theorem match_triggers_accounting :
  forall (tx_triggers rx_triggers : list Q) (max_latency : Q),
    printed (match_triggers_and_calculate_latency
               tx_triggers rx_triggers max_latency) =
      Print [Text "Matching TX and RX triggers..."] ::
      map warn_unmatched
          (List.filter
             (fun u =>
                negb (measured
                        (returned (match_triggers_and_calculate_latency
                                     tx_triggers rx_triggers max_latency))
                        (fst u)))
             (enumerate tx_triggers)) ++
      [matched_line
         (length (returned (match_triggers_and_calculate_latency
                              tx_triggers rx_triggers max_latency)))] /\
    (length (returned (match_triggers_and_calculate_latency
                         tx_triggers rx_triggers max_latency)) +
     length (List.filter
               (fun u =>
                  negb (measured
                          (returned (match_triggers_and_calculate_latency
                                       tx_triggers rx_triggers max_latency))
                          (fst u)))
               (enumerate tx_triggers)) =
     length tx_triggers)%nat.
Proof.
  intros tx_triggers rx_triggers max_latency.
  rewrite printed_shape. unfold printed, returned. cbn [fst snd].
  destruct (match_loop_greedy rx_triggers max_latency tx_triggers)
    as (pairs & unmatched & Hg & -> & ->).
  unfold enumerate. rewrite <- (greedy_unmatched_filter _ _ _ _ _ _ _ _ Hg).
  split; [reflexivity|].
  rewrite length_map. exact (greedy_count _ _ _ _ _ _ _ _ Hg).
Qed.

Lemma nothing_to_match (tx_triggers rx_triggers : list Q) (max_latency : Q) :
  (max_latency <= 0)%Q \/ rx_triggers = [] ->
  match_triggers_and_calculate_latency tx_triggers rx_triggers max_latency =
  ([], Print [Text "Matching TX and RX triggers..."] ::
       map warn_unmatched (enumerate tx_triggers) ++ [matched_line 0]).
Proof.
  intros Hwhy. rewrite printed_shape.
  destruct (match_loop_greedy rx_triggers max_latency tx_triggers)
    as (pairs & unmatched & Hg & -> & ->).
  apply greedy_no_candidates in Hg as [-> ->]; [reflexivity|].
  intros used0 t j rx_j Hin (_ & Hlt & Hle).
  destruct Hwhy as [Hmax | ->]; [lra|destruct Hin].
Qed.

(** X8: with a bound that is not positive, or with no receive event at
    all, the matcher returns no measurement and warns about every send
    event, in order. *)
Theorem match_triggers_nothing_to_match :
  forall (tx_triggers rx_triggers : list Q) (max_latency : Q),
    (max_latency <= 0)%Q \/ rx_triggers = [] ->
    match_triggers_and_calculate_latency tx_triggers rx_triggers max_latency =
    ([], Print [Text "Matching TX and RX triggers..."] ::
         map warn_unmatched (enumerate tx_triggers) ++ [matched_line 0]).
Proof.
  intros tx_triggers rx_triggers max_latency Hwhy.
  now apply nothing_to_match.
Qed.

Lemma match_triggers_nothing_to_match_witness :
  ((-1 <= 0)%Q \/ [5; 6]%Q = []) /\
  match_triggers_and_calculate_latency [1; 2]%Q [5; 6]%Q (-1)%Q =
  ([], Print [Text "Matching TX and RX triggers..."] ::
       map warn_unmatched (enumerate [1; 2]%Q) ++ [matched_line 0]).
Proof.
  assert (Hwhy : (-1 <= 0)%Q \/ [5; 6]%Q = []) by (left; discriminate).
  split; [exact Hwhy|].
  exact (match_triggers_nothing_to_match [1; 2]%Q [5; 6]%Q (-1)%Q Hwhy).
Defined.

(** X9: the pairing is decided send event by send event and never taken
    back: the measurements for a list of send events start with the
    measurements for any prefix of it, the rest carrying later packet
    numbers, and the consumed set only grows. *)
Theorem match_triggers_prefix :
  forall (earlier later rx_triggers : list Q) (max_latency : Q),
  exists more : list LatencyMeasurement,
    returned (match_triggers_and_calculate_latency
                (earlier ++ later) rx_triggers max_latency) =
      returned (match_triggers_and_calculate_latency
                  earlier rx_triggers max_latency) ++ more /\
    Forall (fun m => Z.of_nat (length earlier) <= packet_num m) more /\
    used_rx_indices (match_loop earlier rx_triggers max_latency) ⊆
      used_rx_indices (match_loop (earlier ++ later) rx_triggers max_latency).
Proof.
  intros earlier later rx_triggers max_latency.
  unfold match_triggers_and_calculate_latency, returned. cbn [fst].
  assert (Hloop :
    match_loop (earlier ++ later) rx_triggers max_latency =
    fold_left (match_tx rx_triggers max_latency)
              (enumerate_from (Z.of_nat (length earlier)) later)
              (match_loop earlier rx_triggers max_latency)).
  { unfold match_loop, enumerate.
    now rewrite enumerate_from_app, fold_left_app, Z.add_0_l. }
  destruct (fold_match_tx_greedy rx_triggers max_latency later
              (Z.of_nat (length earlier))
              (match_loop earlier rx_triggers max_latency))
    as (pairs & unmatched & Hg & Hms & _).
  rewrite <- Hloop in Hg, Hms.
  destruct (greedy_packet_nums _ _ _ _ _ _ _ _ Hg) as (_ & Hge).
  destruct (greedy_consumed _ _ _ _ _ _ _ _ Hg) as (Hused & _).
  exists (map fst pairs). split; [exact Hms|]. split.
  - exact (proj1 (List.Forall_map packet_num _ (map fst pairs)) Hge).
  - rewrite Hused. apply union_subseteq_l.
Qed.

Lemma warn_not_closing (k : Z) (t : Q) (n : nat) :
  warn_no_match k t <> matched_line n.
Proof. discriminate. Qed.

Lemma warn_not_among (k : Z) (t : Q) (unmatched : list (Z * Q)) :
  Forall (fun u => fst u <> k) unmatched ->
  ~ In (warn_no_match k t) (map warn_unmatched unmatched).
Proof.
  intros Hall (u & E & Hu)%in_map_iff.
  rewrite Forall_forall in Hall. apply list_elem_of_In, Hall in Hu.
  unfold warn_unmatched, warn_no_match in E. injection E as Hk _. congruence.
Qed.

(** X10: a send event for which some unconsumed receive event qualifies is
    always measured: the matcher returns a measurement with its index and
    time, at least as close as that receive event, and prints no warning
    for it. *)
Theorem qualifying_send_is_matched :
  forall (rx_triggers : list Q) (max_latency : Q)
         (earlier : list Q) (tx_time : Q) (later : list Q) (j : Z) (rx_j : Q),
    In (j, rx_j) (enumerate rx_triggers) ->
    candidate (used_rx_indices (match_loop earlier rx_triggers max_latency))
              max_latency tx_time j rx_j ->
    (exists rx_time,
        In (LatencyMeasurement_init (Z.of_nat (length earlier)) tx_time rx_time)
           (returned (match_triggers_and_calculate_latency
                        (earlier ++ tx_time :: later) rx_triggers max_latency)) /\
        (rx_time - tx_time <= rx_j - tx_time)%Q) /\
    ~ In (warn_no_match (Z.of_nat (length earlier)) tx_time)
         (printed (match_triggers_and_calculate_latency
                     (earlier ++ tx_time :: later) rx_triggers max_latency)).
Proof.
  intros rx_triggers max_latency earlier tx_time later j rx_j Hin Hc.
  set (k := Z.of_nat (length earlier)).
  set (before := match_loop earlier rx_triggers max_latency) in *.
  destruct (find_best_cases (used_rx_indices before) max_latency tx_time rx_triggers)
    as [[_ Hnone] | (i & r & Hm & Hi & Hnear)]; [destruct (Hnone _ _ Hin Hc)|].
  set (paired := {| measurements :=
                      measurements before ++ [LatencyMeasurement_init k tx_time r];
                    used_rx_indices := used_rx_indices before ∪ {[ i ]};
                    stdout := stdout before |}).
  assert (Hloop : match_loop (earlier ++ tx_time :: later) rx_triggers max_latency =
                  fold_left (match_tx rx_triggers max_latency)
                            (enumerate_from (k + 1) later) paired).
  { unfold match_loop, enumerate.
    rewrite enumerate_from_app, fold_left_app. cbn [enumerate_from fold_left].
    fold (enumerate earlier). fold (match_loop earlier rx_triggers max_latency).
    fold before. rewrite Z.add_0_l. fold k.
    rewrite (match_tx_some rx_triggers max_latency before k tx_time r Hm), Hi.
    reflexivity. }
  destruct (fold_match_tx_greedy rx_triggers max_latency later (k + 1) paired)
    as (pairs & unmatched & Hg & Hms & Hout).
  rewrite <- Hloop in Hg, Hms, Hout. cbn [measurements stdout paired] in Hms, Hout.
  destruct (match_loop_greedy rx_triggers max_latency earlier)
    as (pairs0 & unmatched0 & Hg0 & _ & Hout0).
  fold before in Hout0.
  rewrite printed_shape. unfold returned, printed. cbn [fst snd]. split.
  - exists r. split.
    + rewrite Hms. apply in_app_iff. left. apply in_app_iff. right. now left.
    + destruct Hnear as (_ & _ & Hmin). now apply (Hmin j rx_j).
  - rewrite Hout, Hout0.
    destruct (greedy_unmatched _ _ _ _ _ _ _ _ Hg0) as [Hin0 _].
    destruct (greedy_unmatched _ _ _ _ _ _ _ _ Hg) as [Hin1 _].
    intros [[[E | Hw] | Hw]%in_app_iff | [E | []]]%in_app_iff.
    + discriminate E.
    + revert Hw. apply warn_not_among.
      eapply Forall_impl; [exact Hin0|]. intros [ku tu] Hu.
      apply enumerate_from_index in Hu. cbn. lia.
    + revert Hw. apply warn_not_among.
      eapply Forall_impl; [exact Hin1|]. intros [ku tu] Hu.
      apply enumerate_from_index in Hu. cbn. lia.
    + symmetry in E. exact (warn_not_closing _ _ _ E).
Qed.

Lemma qualifying_send_is_matched_witness :
  In (1, 12%Q) (enumerate [2; 12]%Q) /\
  candidate (used_rx_indices (match_loop [0]%Q [2; 12]%Q 100%Q)) 100%Q 10%Q 1 12%Q /\
  (exists rx_time,
      In (LatencyMeasurement_init (Z.of_nat (length [0]%Q)) 10%Q rx_time)
         (returned (match_triggers_and_calculate_latency
                      ([0] ++ 10 :: [])%Q [2; 12]%Q 100%Q)) /\
      (rx_time - 10 <= 12 - 10)%Q) /\
  ~ In (warn_no_match (Z.of_nat (length [0]%Q)) 10%Q)
       (printed (match_triggers_and_calculate_latency
                   ([0] ++ 10 :: [])%Q [2; 12]%Q 100%Q)).
Proof.
  assert (Hin : In (1, 12%Q) (enumerate [2; 12]%Q)) by (right; left; reflexivity).
  assert (Hc : candidate (used_rx_indices (match_loop [0]%Q [2; 12]%Q 100%Q))
                         100%Q 10%Q 1 12%Q).
  { split; [|split].
    - vm_compute. intros H. discriminate H.
    - reflexivity.
    - discriminate. }
  split; [exact Hin|]. split; [exact Hc|].
  exact (qualifying_send_is_matched [2; 12]%Q 100%Q [0]%Q 10%Q [] 1 12%Q Hin Hc).
Defined.

Lemma nondecreasing_head (l : list Q) :
  forall x : Q,
    nondecreasing (x :: l) = true ->
    Forall (Qle x) l /\ nondecreasing l = true.
Proof.
  induction l as [|y l IH]; intros x Hs; [split; [constructor|reflexivity]|].
  cbn [nondecreasing] in Hs. apply andb_true_iff in Hs as [Hxy Hrest].
  apply Qle_bool_iff in Hxy.
  destruct (IH y Hrest) as [Hall _]. split; [|exact Hrest].
  constructor; [exact Hxy|].
  eapply Forall_impl; [exact Hall|]. intros z Hz. cbn beta in Hz. lra.
Qed.

Lemma nondecreasing_lookup (l : list Q) :
  nondecreasing l = true ->
  forall (a b : nat) (x y : Q),
    (a <= b)%nat -> l !! a = Some x -> l !! b = Some y -> (x <= y)%Q.
Proof.
  induction l as [|h l IH]; intros Hs a b x y Hab Ha Hb; [discriminate|].
  destruct (nondecreasing_head l h Hs) as [Hall Hrest].
  destruct a as [|a], b as [|b]; cbn in Ha, Hb; try lia.
  - injection Ha as <-. injection Hb as <-. lra.
  - injection Ha as <-. rewrite Forall_forall in Hall.
    apply Hall. now apply list_elem_of_lookup_2 with b.
  - apply (IH Hrest a b); [lia|assumption|assumption].
Qed.

Section InPlace.
Variable rx_triggers : list Q.
Variable max_latency : Q.
Hypothesis rx_sorted : nondecreasing rx_triggers = true.

Lemma greedy_in_place (txs : list Q) :
  forall (consumed rest : list Q) (used : gset Z),
    rx_triggers = consumed ++ rest ->
    (forall j : Z, j ∈ used <-> 0 <= j < Z.of_nat (length consumed)) ->
    answered_in_place max_latency txs rest = true ->
    exists pairs used',
      greedy rx_triggers max_latency (Z.of_nat (length consumed)) used txs
             pairs [] used' /\
      map fst pairs = pair_in_place (Z.of_nat (length consumed)) txs rest.
Proof.
  induction txs as [|t txs IH]; intros consumed rest used Hrx Hused Hok.
  - exists [], used. split; [constructor|reflexivity].
  - unfold answered_in_place in Hok. apply andb_true_iff in Hok as [Hlen Hall].
    apply Nat.leb_le in Hlen.
    destruct rest as [|r rest]; [cbn in Hlen; lia|].
    cbn [zip_with forallb fst snd] in Hall.
    apply andb_true_iff in Hall as [Hhead Hall].
    apply andb_true_iff in Hhead as [Hlt Hle].
    apply Qltb_true in Hlt. apply Qle_bool_iff in Hle.
    set (k := Z.of_nat (length consumed)) in *.
    assert (Hk : rx_triggers !! length consumed = Some r)
      by (rewrite Hrx; now apply list_lookup_middle).
    assert (Hnear : nearest used max_latency t rx_triggers k r).
    { split; [|split].
      - apply enumerate_from_lookup. split; [lia|].
        replace (Z.to_nat (k - 0)) with (length consumed) by lia. exact Hk.
      - split; [|split; assumption]. rewrite Hused. lia.
      - intros j rx_j [Hj0 Hj]%enumerate_from_lookup (Hfree & _ & _).
        rewrite Z.sub_0_r in Hj.
        assert (Hjk : k <= j) by (rewrite Hused in Hfree; lia).
        split; [|intros _; exact Hjk].
        pose proof (nondecreasing_lookup _ rx_sorted (length consumed) (Z.to_nat j)
                      r rx_j ltac:(lia) Hk Hj).
        lra. }
    destruct (IH (consumed ++ [r]) rest (used ∪ {[ k ]})) as (pairs & used' & Hg & Hms).
    + now rewrite <- app_assoc.
    + intros j. rewrite elem_of_union, elem_of_singleton, Hused, length_app.
      cbn [length]. lia.
    + unfold answered_in_place. apply andb_true_iff. split; [|exact Hall].
      apply Nat.leb_le. cbn [length] in Hlen. lia.
    + rewrite length_app in Hg, Hms. cbn [length] in Hg, Hms.
      replace (Z.of_nat (length consumed + 1)) with (k + 1) in Hg, Hms by lia.
      exists ((LatencyMeasurement_init k t r, k) :: pairs), used'.
      split; [now apply greedy_pair|].
      cbn [map fst pair_in_place]. now rewrite Hms.
Qed.
End InPlace.

(** X11: when the receive times never decrease and each send event is
    followed within the bound by the receive event at the same position,
    the matcher pairs them position by position: measurement [i] joins
    send event [i] and receive event [i], and no send event is left
    unmatched. *)
Theorem match_triggers_in_place :
  forall (tx_triggers rx_triggers : list Q) (max_latency : Q),
    nondecreasing rx_triggers = true ->
    answered_in_place max_latency tx_triggers rx_triggers = true ->
    returned (match_triggers_and_calculate_latency
                tx_triggers rx_triggers max_latency) =
    pair_in_place 0 tx_triggers rx_triggers.
Proof.
  intros tx_triggers rx_triggers max_latency Hsorted Hok.
  destruct (greedy_in_place rx_triggers max_latency Hsorted tx_triggers
              [] rx_triggers ∅) as (pairs & used' & Hg & Hms);
    [reflexivity| |exact Hok|].
  { intros j. rewrite elem_of_empty. cbn [length]. lia. }
  cbn [length] in Hg, Hms. change (Z.of_nat 0) with 0 in Hg, Hms.
  destruct (match_loop_greedy rx_triggers max_latency tx_triggers)
    as (pairs0 & unmatched0 & Hg0 & Hms0 & _).
  destruct (greedy_functional _ _ _ _ _ _ _ _ Hg0 _ _ _ Hg) as (-> & _ & _).
  unfold match_triggers_and_calculate_latency, returned. cbn [fst].
  now rewrite Hms0.
Qed.

Lemma match_triggers_in_place_witness :
  nondecreasing [2; 12; 50]%Q = true /\
  answered_in_place 100%Q [0; 10]%Q [2; 12; 50]%Q = true /\
  returned (match_triggers_and_calculate_latency [0; 10]%Q [2; 12; 50]%Q 100%Q) =
  pair_in_place 0 [0; 10]%Q [2; 12; 50]%Q.
Proof.
  assert (Hsorted : nondecreasing [2; 12; 50]%Q = true) by reflexivity.
  assert (Hok : answered_in_place 100%Q [0; 10]%Q [2; 12; 50]%Q = true)
    by reflexivity.
  split; [exact Hsorted|]. split; [exact Hok|].
  exact (match_triggers_in_place [0; 10]%Q [2; 12; 50]%Q 100%Q Hsorted Hok).
Defined.

(** ** Report builder *)



(** ** The pipeline *)



(** X15: with a bound that is not positive the run never delivers a
    report: it always ends with exit status 1. *)
Theorem main_fails_without_positive_bound :
  forall (py_sum : list Q -> Q) (float_div : Q -> Z -> Q)
         (can_write : string -> bool) (output : option string) (max_latency : Q)
         (timestamps : list Q) (d0_data d1_data : list Z),
    (max_latency <= 0)%Q ->
    snd (main py_sum float_div can_write output max_latency
              timestamps d0_data d1_data) = Exit 1.
Proof.
  intros py_sum float_div can_write output max_latency
         timestamps d0_data d1_data Hmax.
  rewrite main_unfold. cbn [snd]. unfold main_triggers.
  destruct (detect_rising_edges timestamps d0_data) as [|t txs]; [reflexivity|].
  destruct (detect_rising_edges timestamps d1_data) as [|r rxs]; [reflexivity|].
  rewrite (nothing_to_match (t :: txs) (r :: rxs) max_latency) by now left.
  reflexivity.
Qed.

Lemma main_fails_without_positive_bound_witness :
  (0 <= 0)%Q /\
  snd (main exact_sum exact_div (fun _ => true) None 0%Q
            [0; 1; 2]%Q [0; 1; 0] [0; 0; 1]) = Exit 1.
Proof.
  assert (Hmax : (0 <= 0)%Q) by discriminate.
  split; [exact Hmax|].
  exact (main_fails_without_positive_bound
           exact_sum exact_div (fun _ => true) None 0%Q
           [0; 1; 2]%Q [0; 1; 0] [0; 0; 1] Hmax).
Defined.

(** ** Reading the rows *)

Section ReadingProofs.
Variable py_float : string -> option Q.
Variable py_int : string -> option Z.
Variable describe : RowError -> string.
Variable repr_fieldnames : list string -> string.

Lemma read_row_aligned (st st' : ReadState) (row : gmap string (option string)) :
  read_row py_float py_int describe st row = inr st' ->
  length (read_d0_data st) = length (read_timestamps st) ->
  length (read_d1_data st) = length (read_timestamps st) ->
  row_count st = Z.of_nat (length (read_timestamps st)) ->
  length (read_d0_data st') = length (read_timestamps st') /\
  length (read_d1_data st') = length (read_timestamps st') /\
  row_count st' = Z.of_nat (length (read_timestamps st')) /\
  (length (read_timestamps st') <= S (length (read_timestamps st)))%nat.
Proof.
  unfold read_row. intros Hstep H0 H1 Hc.
  destruct (convert_row py_float py_int row) as [e | [[t a] b]].
  - destruct (caught e); [|discriminate]. injection Hstep as <-.
    cbn [read_timestamps read_d0_data read_d1_data row_count]. repeat split; lia.
  - injection Hstep as <-.
    cbn [read_timestamps read_d0_data read_d1_data row_count].
    rewrite !length_app. cbn [length]. repeat split; lia.
Qed.

Lemma read_rows_aligned (rows : list (gmap string (option string))) :
  forall st st' : ReadState,
    read_rows py_float py_int describe rows st = inr st' ->
    length (read_d0_data st) = length (read_timestamps st) ->
    length (read_d1_data st) = length (read_timestamps st) ->
    row_count st = Z.of_nat (length (read_timestamps st)) ->
    length (read_d0_data st') = length (read_timestamps st') /\
    length (read_d1_data st') = length (read_timestamps st') /\
    row_count st' = Z.of_nat (length (read_timestamps st')) /\
    (length (read_timestamps st') <= length (read_timestamps st) + length rows)%nat.
Proof.
  induction rows as [|row rows IH]; intros st st' Hread H0 H1 Hc;
    cbn [read_rows] in Hread.
  - injection Hread as <-. repeat split; try assumption. cbn [length]. lia.
  - destruct (read_row py_float py_int describe st row) as [failure | st1] eqn:Hrow;
      [discriminate|].
    destruct (read_row_aligned _ _ _ Hrow H0 H1 Hc) as (A0 & A1 & Ac & Alen).
    destruct (IH _ _ Hread A0 A1 Ac) as (B0 & B1 & Bc & Blen).
    repeat split; try assumption. cbn [length]. lia.
Qed.

Lemma omap_kept_cons (row : gmap string (option string))
    (rows : list (gmap string (option string))) :
  omap (kept py_float py_int) (row :: rows) =
  match convert_row py_float py_int row with
  | inr values => values :: omap (kept py_float py_int) rows
  | inl _ => omap (kept py_float py_int) rows
  end.
Proof.
  cbn [omap list_omap]. unfold kept at 1.
  destruct (convert_row py_float py_int row); reflexivity.
Qed.

Lemma read_rows_kept (rows : list (gmap string (option string))) :
  forall st : ReadState,
    (forall row e, In row rows ->
                   convert_row py_float py_int row = inl e -> caught e = true) ->
    exists st',
      read_rows py_float py_int describe rows st = inr st' /\
      read_timestamps st' =
        read_timestamps st ++
        map (fun x => fst (fst x)) (omap (kept py_float py_int) rows) /\
      read_d0_data st' =
        read_d0_data st ++
        map (fun x => snd (fst x)) (omap (kept py_float py_int) rows) /\
      read_d1_data st' =
        read_d1_data st ++ map snd (omap (kept py_float py_int) rows).
Proof.
  induction rows as [|row rows IH]; intros st Hcaught.
  - exists st. cbn. rewrite !app_nil_r. repeat split.
  - assert (Hrest : forall r e', In r rows ->
                      convert_row py_float py_int r = inl e' -> caught e' = true)
      by (intros r e' Hr; apply Hcaught; now right).
    rewrite omap_kept_cons. cbn [read_rows]. unfold read_row.
    destruct (convert_row py_float py_int row) as [e | [[t a] b]] eqn:Hrow.
    + rewrite (Hcaught row e (or_introl eq_refl) Hrow).
      match goal with
      | |- context [read_rows _ _ _ rows ?st1] =>
          destruct (IH st1 Hrest) as (st' & Hread & Ht & H0 & H1)
      end.
      cbn [read_timestamps read_d0_data read_d1_data] in Ht, H0, H1.
      exists st'. split; [exact Hread|]. split; [exact Ht|]. split; assumption.
    + match goal with
      | |- context [read_rows _ _ _ rows ?st1] =>
          destruct (IH st1 Hrest) as (st' & Hread & Ht & H0 & H1)
      end.
      cbn [read_timestamps read_d0_data read_d1_data] in Ht, H0, H1.
      exists st'. split; [exact Hread|]. cbn [map fst snd].
      rewrite Ht, H0, H1, <- !app_assoc. repeat split.
Qed.

Lemma read_rows_uncaught (bad : gmap string (option string)) (e : RowError)
    (after : list (gmap string (option string))) :
  convert_row py_float py_int bad = inl e ->
  caught e = false ->
  forall (before : list (gmap string (option string))) (st : ReadState),
  exists failure,
    read_rows py_float py_int describe (before ++ bad :: after) st = inl failure.
Proof.
  intros Hbad Hcaught.
  induction before as [|row before IH]; intros st; cbn [app read_rows].
  - unfold read_row. rewrite Hbad, Hcaught. eauto.
  - destruct (read_row py_float py_int describe st row) as [failure | st1];
      [eauto|apply IH].
Qed.

End ReadingProofs.

(** X16: when [parse_csv_file] returns, the rows it kept form three lists
    of one length, at most the number of rows read; the triggers of both
    channels are detected against the same timestamps, and the count it
    prints is that length. *)
Theorem parse_csv_file_aligned :
  forall (py_float : string -> option Q) (py_int : string -> option Z)
         (describe : RowError -> string) (repr_fieldnames : list string -> string)
         (filename : string) (fieldnames : option (list string))
         (rows : list (gmap string (option string)))
         (out : list Effect) (tx_triggers rx_triggers : list Q),
    parse_csv_file py_float py_int describe repr_fieldnames filename
                   (CsvReader fieldnames rows) =
      (out, inr (tx_triggers, rx_triggers)) ->
    exists (timestamps : list Q) (d0_data d1_data : list Z),
      length d0_data = length timestamps /\
      length d1_data = length timestamps /\
      (length timestamps <= length rows)%nat /\
      tx_triggers = detect_rising_edges timestamps d0_data /\
      rx_triggers = detect_rising_edges timestamps d1_data /\
      In (Print [Text "Successfully parsed "; Int (Z.of_nat (length timestamps));
                 Text " data points"]) out.
Proof.
  intros py_float py_int describe repr_fieldnames
         filename fieldnames rows out tx_triggers rx_triggers Hparse.
  unfold parse_csv_file in Hparse.
  destruct (check_fieldnames fieldnames) as [message | names]; [discriminate|].
  destruct (read_rows py_float py_int describe rows _) as [[e out'] | st] eqn:Hread;
    [discriminate|].
  apply read_rows_aligned in Hread as (H0 & H1 & Hc & Hlen); try reflexivity.
  unfold parse_csv_file_triggers in Hparse.
  injection Hparse as <- <- <-.
  exists (read_timestamps st), (read_d0_data st), (read_d1_data st).
  repeat split; try assumption.
  rewrite <- Hc. apply in_app_iff. right. now left.
Qed.

Lemma parse_csv_file_aligned_witness :
  parse_csv_file (fun _ => Some 1%Q) (fun _ => Some 1) (fun _ => EmptyString)
                 (fun _ => EmptyString) "rec.csv"
                 (CsvReader (Some ["Timestamp(ms)"; "D0"; "D1"])
                            [{[ "Timestamp(ms)" := Some "1"; "D0" := Some "1";
                                "D1" := Some "1" ]}]) =
    ([Print [Text "Parsing CSV file: "; Text "rec.csv"];
      Print [Text "Columns found: "; Text EmptyString];
      Print [Text "Successfully parsed "; Int 1; Text " data points"];
      Print [Text "Detecting trigger events..."];
      Print [Text "Found "; Int 1; Text " TX triggers (D0)"];
      Print [Text "Found "; Int 1; Text " RX triggers (D1)"]],
     inr ([1%Q], [1%Q])) /\
  exists (timestamps : list Q) (d0_data d1_data : list Z),
    length d0_data = length timestamps /\
    length d1_data = length timestamps /\
    (length timestamps <= 1)%nat /\
    [1%Q] = detect_rising_edges timestamps d0_data /\
    [1%Q] = detect_rising_edges timestamps d1_data /\
    In (Print [Text "Successfully parsed "; Int (Z.of_nat (length timestamps));
               Text " data points"])
       [Print [Text "Parsing CSV file: "; Text "rec.csv"];
        Print [Text "Columns found: "; Text EmptyString];
        Print [Text "Successfully parsed "; Int 1; Text " data points"];
        Print [Text "Detecting trigger events..."];
        Print [Text "Found "; Int 1; Text " TX triggers (D0)"];
        Print [Text "Found "; Int 1; Text " RX triggers (D1)"]].
Proof.
  assert (Hparse :
    parse_csv_file (fun _ => Some 1%Q) (fun _ => Some 1) (fun _ => EmptyString)
                   (fun _ => EmptyString) "rec.csv"
                   (CsvReader (Some ["Timestamp(ms)"; "D0"; "D1"])
                              [{[ "Timestamp(ms)" := Some "1"; "D0" := Some "1";
                                  "D1" := Some "1" ]}]) =
      ([Print [Text "Parsing CSV file: "; Text "rec.csv"];
        Print [Text "Columns found: "; Text EmptyString];
        Print [Text "Successfully parsed "; Int 1; Text " data points"];
        Print [Text "Detecting trigger events..."];
        Print [Text "Found "; Int 1; Text " TX triggers (D0)"];
        Print [Text "Found "; Int 1; Text " RX triggers (D1)"]],
       inr ([1%Q], [1%Q]))) by (vm_compute; reflexivity).
  split; [exact Hparse|].
  exact (parse_csv_file_aligned _ _ _ _ _ _ _ _ _ _ Hparse).
Defined.

(** X17: when no row raises a [TypeError], [parse_csv_file] keeps exactly
    the rows whose three fields convert, in the order of the file, skips
    the others, and detects the triggers on what it kept. *)
Theorem parse_csv_file_keeps_convertible_rows :
  forall (py_float : string -> option Q) (py_int : string -> option Z)
         (describe : RowError -> string) (repr_fieldnames : list string -> string)
         (filename : string) (names : list string)
         (rows : list (gmap string (option string))),
    "Timestamp(ms)" ∈ names ->
    "D0" ∈ names ->
    "D1" ∈ names ->
    (forall row e, In row rows ->
                   convert_row py_float py_int row = inl e -> caught e = true) ->
    snd (parse_csv_file py_float py_int describe repr_fieldnames filename
                        (CsvReader (Some names) rows)) =
    inr (detect_rising_edges
           (map (fun x => fst (fst x)) (omap (kept py_float py_int) rows))
           (map (fun x => snd (fst x)) (omap (kept py_float py_int) rows)),
         detect_rising_edges
           (map (fun x => fst (fst x)) (omap (kept py_float py_int) rows))
           (map snd (omap (kept py_float py_int) rows))).
Proof.
  intros py_float py_int describe repr_fieldnames filename names rows
         Ht H0 H1 Hcaught.
  unfold parse_csv_file, check_fieldnames.
  rewrite !bool_decide_eq_true_2 by assumption. cbn [negb orb].
  match goal with
  | |- context [read_rows _ _ _ rows ?st0] =>
      destruct (read_rows_kept py_float py_int describe rows st0 Hcaught)
        as (st & -> & Hts & Hd0 & Hd1)
  end.
  cbn [read_start read_timestamps read_d0_data read_d1_data app] in Hts, Hd0, Hd1.
  unfold parse_csv_file_triggers. cbn [snd]. now rewrite Hts, Hd0, Hd1.
Qed.

Lemma parse_csv_file_keeps_convertible_rows_witness :
  "Timestamp(ms)" ∈ ["Timestamp(ms)"; "D0"; "D1"] /\
  "D0" ∈ ["Timestamp(ms)"; "D0"; "D1"] /\
  "D1" ∈ ["Timestamp(ms)"; "D0"; "D1"] /\
  (forall row e,
      In row [({[ "Timestamp(ms)" := Some "x" ]} : gmap string (option string))] ->
      convert_row (fun _ => None) (fun _ => Some 1) row = inl e ->
      caught e = true) /\
  snd (parse_csv_file (fun _ => None) (fun _ => Some 1) (fun _ => EmptyString)
                      (fun _ => EmptyString) "rec.csv"
                      (CsvReader (Some ["Timestamp(ms)"; "D0"; "D1"])
                                 [{[ "Timestamp(ms)" := Some "x" ]}])) =
  inr ([], []).
Proof.
  assert (Ht : "Timestamp(ms)" ∈ ["Timestamp(ms)"; "D0"; "D1"]) by (by left).
  assert (H0 : "D0" ∈ ["Timestamp(ms)"; "D0"; "D1"]) by (right; by left).
  assert (H1 : "D1" ∈ ["Timestamp(ms)"; "D0"; "D1"]) by (do 2 right; by left).
  assert (Hcaught : forall row e,
            In row [({[ "Timestamp(ms)" := Some "x" ]} : gmap string (option string))] ->
            convert_row (fun _ => None) (fun _ => Some 1) row = inl e ->
            caught e = true).
  { intros row e [<- | []] Hrow. vm_compute in Hrow. injection Hrow as <-.
    reflexivity. }
  split; [exact Ht|]. split; [exact H0|]. split; [exact H1|].
  split; [exact Hcaught|].
  exact (parse_csv_file_keeps_convertible_rows
           (fun _ => None) (fun _ => Some 1) (fun _ => EmptyString)
           (fun _ => EmptyString) "rec.csv" _ _ Ht H0 H1 Hcaught).
Defined.

(** X18: a row that raises a [TypeError], which is what [float] or [int]
    do on the [None] of a column that a short line leaves out, is not
    skipped: whatever the other rows, the run ends with exit status 1 and
    returns no triggers. *)
Theorem parse_csv_file_aborts_on_missing_value :
  forall (py_float : string -> option Q) (py_int : string -> option Z)
         (describe : RowError -> string) (repr_fieldnames : list string -> string)
         (filename : string) (fieldnames : option (list string))
         (before : list (gmap string (option string)))
         (bad : gmap string (option string))
         (after : list (gmap string (option string))) (e : RowError),
    convert_row py_float py_int bad = inl e ->
    caught e = false ->
    snd (parse_csv_file py_float py_int describe repr_fieldnames filename
                        (CsvReader fieldnames (before ++ bad :: after))) = inl 1.
Proof.
  intros py_float py_int describe repr_fieldnames filename fieldnames
         before bad after e Hbad Hcaught.
  unfold parse_csv_file.
  destruct (check_fieldnames fieldnames) as [message | names]; [reflexivity|].
  match goal with
  | |- context [read_rows _ _ _ _ ?st0] =>
      destruct (read_rows_uncaught py_float py_int describe bad e after
                  Hbad Hcaught before st0) as ([e' out] & ->)
  end.
  reflexivity.
Qed.

Lemma parse_csv_file_aborts_on_missing_value_witness :
  convert_row (fun _ => Some 1%Q) (fun _ => Some 1)
              {[ "Timestamp(ms)" := Some "1"; "D0" := Some "0"; "D1" := None ]} =
    inl IntOfNone /\
  caught IntOfNone = false /\
  snd (parse_csv_file (fun _ => Some 1%Q) (fun _ => Some 1) (fun _ => EmptyString)
                      (fun _ => EmptyString) "rec.csv"
                      (CsvReader (Some ["Timestamp(ms)"; "D0"; "D1"])
                         ([] ++
                          {[ "Timestamp(ms)" := Some "1"; "D0" := Some "0";
                             "D1" := None ]} :: []))) = inl 1.
Proof.
  assert (Hbad : convert_row (fun _ => Some 1%Q) (fun _ => Some 1)
                   {[ "Timestamp(ms)" := Some "1"; "D0" := Some "0"; "D1" := None ]} =
                 inl IntOfNone) by (vm_compute; reflexivity).
  assert (Hcaught : caught IntOfNone = false) by reflexivity.
  split; [exact Hbad|]. split; [exact Hcaught|].
  exact (parse_csv_file_aborts_on_missing_value
           (fun _ => Some 1%Q) (fun _ => Some 1) (fun _ => EmptyString)
           (fun _ => EmptyString) "rec.csv" (Some ["Timestamp(ms)"; "D0"; "D1"])
           [] _ [] IntOfNone Hbad Hcaught).
Defined.

(** X19: a recording without a header line, or whose header lacks one of
    the columns Timestamp(ms), D0 and D1, is refused before any row is
    read: the only output is the error and the run ends with exit status
    1. *)
Theorem parse_csv_file_checks_header :
  forall (py_float : string -> option Q) (py_int : string -> option Z)
         (describe : RowError -> string) (repr_fieldnames : list string -> string)
         (filename : string) (fieldnames : option (list string))
         (rows : list (gmap string (option string))),
    fieldnames = None \/
    (exists names,
        fieldnames = Some names /\
        ("Timestamp(ms)" ∉ names \/ "D0" ∉ names \/ "D1" ∉ names)) ->
    exists message,
      parse_csv_file py_float py_int describe repr_fieldnames filename
                     (CsvReader fieldnames rows) =
      ([error_reading message], inl 1).
Proof.
  intros py_float py_int describe repr_fieldnames filename fieldnames rows Hbad.
  unfold parse_csv_file, check_fieldnames.
  destruct Hbad as [-> | (names & -> & Hmiss)]; [eauto|].
  destruct (bool_decide ("Timestamp(ms)" ∈ names)) eqn:Ht; cbn [negb]; [|eauto].
  destruct (bool_decide ("D0" ∈ names)) eqn:H0; cbn [negb orb]; [|eauto].
  destruct (bool_decide ("D1" ∈ names)) eqn:H1; cbn [negb orb]; [|eauto].
  apply bool_decide_eq_true in Ht, H0, H1.
  destruct Hmiss as [H | [H | H]]; contradiction.
Qed.

Lemma parse_csv_file_checks_header_witness :
  (Some ["Timestamp(ms)"; "D0"] = None \/
   (exists names,
       Some ["Timestamp(ms)"; "D0"] = Some names /\
       ("Timestamp(ms)" ∉ names \/ "D0" ∉ names \/ "D1" ∉ names))) /\
  exists message,
    parse_csv_file (fun _ => Some 1%Q) (fun _ => Some 1) (fun _ => EmptyString)
                   (fun _ => EmptyString) "rec.csv"
                   (CsvReader (Some ["Timestamp(ms)"; "D0"]) []) =
    ([error_reading message], inl 1).
Proof.
  assert (Hbad : Some ["Timestamp(ms)"; "D0"] = None \/
                 (exists names,
                     Some ["Timestamp(ms)"; "D0"] = Some names /\
                     ("Timestamp(ms)" ∉ names \/ "D0" ∉ names \/ "D1" ∉ names))).
  { right. exists ["Timestamp(ms)"; "D0"]. split; [reflexivity|].
    do 2 right. intros H. apply list_elem_of_In in H.
    destruct H as [H | [H | []]]; discriminate H. }
  split; [exact Hbad|].
  exact (parse_csv_file_checks_header
           (fun _ => Some 1%Q) (fun _ => Some 1) (fun _ => EmptyString)
           (fun _ => EmptyString) "rec.csv" _ [] Hbad).
Defined.

(** ** Detector and matcher together *)

Lemma StronglySorted_lookup {A : Type} (R : A -> A -> Prop) (l : list A) :
  StronglySorted R l ->
  forall (i j : nat) (x y : A),
    (i < j)%nat -> l !! i = Some x -> l !! j = Some y -> R x y.
Proof.
  induction 1 as [|h l Hs IH Hall]; intros i j x y Hij Hi Hj; [discriminate|].
  destruct j as [|j]; [lia|]. cbn in Hj. destruct i as [|i]; cbn in Hi.
  - injection Hi as <-. rewrite Forall_forall in Hall.
    apply Hall. now apply list_elem_of_lookup_2 with j.
  - apply (IH i j); [lia|assumption|assumption].
Qed.

(** X20: on a recording whose timestamps grow strictly, the measurements
    come out in the order of their send times, which grow strictly, and
    no two of them share a receive time. *)
Theorem pipeline_measurements_distinct :
  forall (timestamps : list Q) (d0_data d1_data : list Z) (max_latency : Q)
         (a b : nat) (ma mb : LatencyMeasurement),
    StronglySorted Qlt timestamps ->
    (a < b)%nat ->
    returned (match_triggers_and_calculate_latency
                (detect_rising_edges timestamps d0_data)
                (detect_rising_edges timestamps d1_data) max_latency) !! a = Some ma ->
    returned (match_triggers_and_calculate_latency
                (detect_rising_edges timestamps d0_data)
                (detect_rising_edges timestamps d1_data) max_latency) !! b = Some mb ->
    (tx_time ma < tx_time mb)%Q /\ ~ (rx_time ma == rx_time mb)%Q.
Proof.
  intros timestamps d0_data d1_data max_latency a b ma mb Hs Hab Ha Hb.
  assert (Htx : StronglySorted Qlt (detect_rising_edges timestamps d0_data))
    by (eapply StronglySorted_sublist; [apply rising_edges_loop_sublist|exact Hs]).
  assert (Hrx : StronglySorted Qlt (detect_rising_edges timestamps d1_data))
    by (eapply StronglySorted_sublist; [apply rising_edges_loop_sublist|exact Hs]).
  set (tx_triggers := detect_rising_edges timestamps d0_data) in *.
  set (rx_triggers := detect_rising_edges timestamps d1_data) in *.
  unfold match_triggers_and_calculate_latency, returned in Ha, Hb. cbn [fst] in Ha, Hb.
  destruct (match_loop_greedy rx_triggers max_latency tx_triggers)
    as (pairs & unmatched & Hg & Hms & _).
  rewrite Hms in Ha, Hb.
  pose proof (greedy_pairs _ _ _ _ _ _ _ _ Hg) as Hpairs.
  destruct (greedy_consumed _ _ _ _ _ _ _ _ Hg) as (_ & Hnd & _).
  destruct (greedy_packet_nums _ _ _ _ _ _ _ _ Hg) as (Hsorted & _).
  change (map fst pairs) with (fst <$> pairs) in Ha, Hb.
  rewrite list_lookup_fmap in Ha, Hb.
  destruct (pairs !! a) as [[ma' ia]|] eqn:Hpa; [|discriminate].
  destruct (pairs !! b) as [[mb' ib]|] eqn:Hpb; [|discriminate].
  cbn in Ha, Hb. injection Ha as ->. injection Hb as ->.
  rewrite Forall_forall in Hpairs.
  destruct (Hpairs _ (list_elem_of_lookup_2 _ _ _ Hpa)) as (Hta & Hia & _).
  destruct (Hpairs _ (list_elem_of_lookup_2 _ _ _ Hpb)) as (Htb & Hib & _).
  cbn [fst snd] in Hta, Hia, Htb, Hib.
  apply enumerate_from_lookup in Hta as [Hta0 Hta], Htb as [Htb0 Htb].
  apply enumerate_from_lookup in Hia as [Hia0 Hia], Hib as [Hib0 Hib].
  split.
  - assert (Hnum : packet_num ma < packet_num mb).
    { apply (StronglySorted_lookup Z.lt _ Hsorted a b); [exact Hab| |].
      - change (map packet_num (map fst pairs))
          with (packet_num <$> (fst <$> pairs)).
        now rewrite !list_lookup_fmap, Hpa.
      - change (map packet_num (map fst pairs))
          with (packet_num <$> (fst <$> pairs)).
        now rewrite !list_lookup_fmap, Hpb. }
    apply (StronglySorted_lookup Qlt _ Htx
             (Z.to_nat (packet_num ma - 0)) (Z.to_nat (packet_num mb - 0)));
      [lia|assumption|assumption].
  - assert (Hidx : ia <> ib).
    { intros ->. apply NoDup_ListNoDup in Hnd.
      assert (a = b); [|lia].
      apply (NoDup_lookup (map snd pairs) a b ib Hnd).
      - change (map snd pairs) with (snd <$> pairs).
        now rewrite list_lookup_fmap, Hpa.
      - change (map snd pairs) with (snd <$> pairs).
        now rewrite list_lookup_fmap, Hpb. }
    intros Heq.
    destruct (Z.lt_total ia ib) as [Hlt | [Heq' | Hgt]]; [|contradiction|].
    + pose proof (StronglySorted_lookup Qlt _ Hrx
                    (Z.to_nat (ia - 0)) (Z.to_nat (ib - 0)) _ _
                    ltac:(lia) Hia Hib). lra.
    + pose proof (StronglySorted_lookup Qlt _ Hrx
                    (Z.to_nat (ib - 0)) (Z.to_nat (ia - 0)) _ _
                    ltac:(lia) Hib Hia). lra.
Qed.

Lemma pipeline_measurements_distinct_witness :
  StronglySorted Qlt [0; 1; 2; 3]%Q /\
  (0 < 1)%nat /\
  returned (match_triggers_and_calculate_latency
              (detect_rising_edges [0; 1; 2; 3]%Q [1; 0; 1; 0])
              (detect_rising_edges [0; 1; 2; 3]%Q [0; 1; 0; 1]) 100%Q) !! 0%nat =
    Some (LatencyMeasurement_init 0 0 1) /\
  returned (match_triggers_and_calculate_latency
              (detect_rising_edges [0; 1; 2; 3]%Q [1; 0; 1; 0])
              (detect_rising_edges [0; 1; 2; 3]%Q [0; 1; 0; 1]) 100%Q) !! 1%nat =
    Some (LatencyMeasurement_init 1 2 3) /\
  (0 < 2)%Q /\ ~ (1 == 3)%Q.
Proof.
  assert (Hs : StronglySorted Qlt [0; 1; 2; 3]%Q)
    by (repeat constructor; reflexivity).
  assert (Hab : (0 < 1)%nat) by lia.
  assert (Ha : returned (match_triggers_and_calculate_latency
                 (detect_rising_edges [0; 1; 2; 3]%Q [1; 0; 1; 0])
                 (detect_rising_edges [0; 1; 2; 3]%Q [0; 1; 0; 1]) 100%Q) !! 0%nat =
               Some (LatencyMeasurement_init 0 0 1)) by (vm_compute; reflexivity).
  assert (Hb : returned (match_triggers_and_calculate_latency
                 (detect_rising_edges [0; 1; 2; 3]%Q [1; 0; 1; 0])
                 (detect_rising_edges [0; 1; 2; 3]%Q [0; 1; 0; 1]) 100%Q) !! 1%nat =
               Some (LatencyMeasurement_init 1 2 3)) by (vm_compute; reflexivity).
  split; [exact Hs|]. split; [exact Hab|]. split; [exact Ha|]. split; [exact Hb|].
  exact (pipeline_measurements_distinct _ _ _ _ _ _ _ _ Hs Hab Ha Hb).
Defined.
